(** * jetson_phase1: the DAQ controller, its waveform generator and the
      Butterworth filter helpers

    A shallow embedding of [mcc_daq.py] (class [DAQ]) and [processor.py]
    (class [DataProcessor]).

    - Python floats and numpy arrays of floats are read as real numbers
      ([R]) and lists of reals: the development is about the values the
      formulas denote, not about rounding.
    - A method that reads or mutates [self] is a computation in a small
      state-and-exception monad over the record [DAQ]; a raised exception
      keeps the mutations made before it, as in Python.
    - The vendor driver (uldaq) and scipy are outside the repository: the
      driver objects are records holding what the methods of [DAQ] read from
      them, and [butter] and [filtfilt] are section variables. *)

From Stdlib Require Import Reals Lra Lia ZArith List String Bool.
Import ListNotations.

Local Open Scope R_scope.

(** ** Exceptions and the state monad *)

(** The Python exceptions the modelled code can raise, each with its
    message. *)
Inductive exn : Type :=
| RuntimeError (msg : string)
| ValueError (msg : string)
| AttributeError (msg : string)
| IndexError (msg : string)
| ZeroDivisionError (msg : string).

Inductive result (A : Type) : Type :=
| Ok (a : A)
| Raise (e : exn).

Arguments Ok {A} a.
Arguments Raise {A} e.

Definition is_ok {A} (r : result A) : bool :=
  match r with Ok _ => true | Raise _ => false end.

Module Exc.
(** Pure code that may raise. *)
Definition bind {A B} (m : result A) (k : A -> result B) : result B :=
  match m with
  | Ok a => k a
  | Raise e => Raise e
  end.
End Exc.

Module St.
(** Code that may raise and that threads a state [S]. *)
Definition M (S A : Type) : Type := S -> result A * S.

Definition ret {S A} (a : A) : M S A := fun s => (Ok a, s).
Definition raise {S A} (e : exn) : M S A := fun s => (Raise e, s).
Definition bind {S A B} (m : M S A) (k : A -> M S B) : M S B :=
  fun s =>
    match m s with
    | (Ok a, s') => k a s'
    | (Raise e, s') => (Raise e, s')
    end.
Definition get {S} : M S S := fun s => (Ok s, s).
Definition put {S} (s : S) : M S unit := fun _ => (Ok tt, s).
Definition lift {S A} (r : result A) : M S A := fun s => (r, s).
(** [if c: body] *)
Definition when {S} (c : bool) (body : M S unit) : M S unit :=
  if c then body else ret tt.
End St.

Declare Scope py_scope.
Delimit Scope py_scope with py.
Notation "x <- m ;; k" := (St.bind m (fun x => k))
  (at level 61, m at next level, right associativity) : py_scope.
Notation "m ;; k" := (St.bind m (fun _ => k))
  (at level 61, right associativity) : py_scope.

(** ** The driver's objects *)

(** Modelled from the spec: the status type of the hardware scan service
    ([uldaq.ScanStatus], not part of the repository), section 6:
    [getScanStatus(Connection, direction) -> {Idle|Running|Error}].  The code
    names [ScanStatus.IDLE] and [ScanStatus.RUNNING] only. *)
Inductive ScanStatus : Type := IDLE | RUNNING | ERROR.

Definition ScanStatus_eqb (a b : ScanStatus) : bool :=
  match a, b with
  | IDLE, IDLE | RUNNING, RUNNING | ERROR, ERROR => true
  | _, _ => false
  end.

(** The enumeration values the configuration maps hold. *)
Inductive InterfaceType : Type := USB.
Inductive AiInputMode : Type := SINGLE_ENDED.
Inductive Range : Type := BIP10VOLTS.
Inductive ScanOption : Type := CONTINUOUS.
Inductive AInScanFlag : Type := AIN_DEFAULT.
Inductive AOutScanFlag : Type := AOUT_DEFAULT.

(** What [get_daq_device_inventory] reports about one attached device: its
    name, whether it has an analog input (output) subsystem and, if so,
    whether that subsystem has a hardware pacer, whether [connect] ends up
    connected, and the rate its clock gives for a requested rate. *)
Record DaqDeviceDescriptor : Type := {
  dev_string : string;
  hw_ai : option bool;
  hw_ao : option bool;
  hw_connects : bool;
  hw_clock : R -> R
}.

(** [self.ai_info] / [self.ao_info]: the object [get_info()] returns. *)
Record DevInfo : Type := { has_pacer : bool }.

(** [self.ai_device]: the analog input subsystem. *)
Record AiDevice : Type := {
  ai_get_info : DevInfo;
  ai_scan_status : ScanStatus;
  ai_clock : R -> R
}.

(** [self.ao_device]: the analog output subsystem. *)
Record AoDevice : Type := {
  ao_get_info : DevInfo;
  ao_scan_status : ScanStatus;
  ao_clock : R -> R
}.

(** [self.daq_device]: the device handle [DaqDevice(descriptor)]. *)
Record DaqDevice : Type := {
  get_descriptor : DaqDeviceDescriptor;
  is_connected : bool;
  is_released : bool
}.

Definition DaqDevice_new (d : DaqDeviceDescriptor) : DaqDevice :=
  {| get_descriptor := d; is_connected := false; is_released := false |}.

Definition get_ai_device (dev : DaqDevice) : option AiDevice :=
  match hw_ai (get_descriptor dev) with
  | Some p => Some {| ai_get_info := {| has_pacer := p |};
                      ai_scan_status := IDLE;
                      ai_clock := hw_clock (get_descriptor dev) |}
  | None => None
  end.

Definition get_ao_device (dev : DaqDevice) : option AoDevice :=
  match hw_ao (get_descriptor dev) with
  | Some p => Some {| ao_get_info := {| has_pacer := p |};
                      ao_scan_status := IDLE;
                      ao_clock := hw_clock (get_descriptor dev) |}
  | None => None
  end.

(** [connect(connection_code=0)] *)
Definition connect (dev : DaqDevice) : DaqDevice :=
  {| get_descriptor := get_descriptor dev;
     is_connected := hw_connects (get_descriptor dev);
     is_released := is_released dev |}.

Definition disconnect (dev : DaqDevice) : DaqDevice :=
  {| get_descriptor := get_descriptor dev;
     is_connected := false;
     is_released := is_released dev |}.

Definition release (dev : DaqDevice) : DaqDevice :=
  {| get_descriptor := get_descriptor dev;
     is_connected := is_connected dev;
     is_released := true |}.

Definition ai_set_status (st : ScanStatus) (a : AiDevice) : AiDevice :=
  {| ai_get_info := ai_get_info a; ai_scan_status := st; ai_clock := ai_clock a |}.

Definition ao_set_status (st : ScanStatus) (a : AoDevice) : AoDevice :=
  {| ao_get_info := ao_get_info a; ao_scan_status := st; ao_clock := ao_clock a |}.

(** ** The controller's state *)

(** [self.analog_input_map] *)
Record AnalogInputMap : Type := {
  in_mode : AiInputMode;
  in_channel : Z;
  in_voltage_range : Range;
  in_sample_rate : R;
  in_samples_per_channel : Z;
  in_scan_operation : ScanOption;
  in_scan_flag : AInScanFlag
}.

(** [self.analog_output_map] *)
Record AnalogOutputMap : Type := {
  out_channel : Z;
  out_voltage_range : Range;
  out_sample_rate : R;
  out_samples_per_channel : Z;
  out_scan_operation : ScanOption;
  out_scan_flag : AOutScanFlag
}.

(** The attributes of a [DAQ] object. *)
Record DAQ : Type := {
  daq_device : option DaqDevice;
  ai_device : option AiDevice;
  ao_device : option AoDevice;
  ai_info : option DevInfo;
  ao_info : option DevInfo;
  status : ScanStatus;
  actual_in_rate : R;
  actual_out_rate : R;
  buffer_in : option (list R);
  buffer_out : option (list R);
  input_average : R;
  analog_input_map : AnalogInputMap;
  analog_output_map : AnalogOutputMap
}.

Definition INTERFACE_TYPE : InterfaceType := USB.

Definition default_input_map : AnalogInputMap :=
  {| in_mode := SINGLE_ENDED; in_channel := 1; in_voltage_range := BIP10VOLTS;
     in_sample_rate := 1000; in_samples_per_channel := 10000;
     in_scan_operation := CONTINUOUS; in_scan_flag := AIN_DEFAULT |}.

Definition default_output_map : AnalogOutputMap :=
  {| out_channel := 1; out_voltage_range := BIP10VOLTS;
     out_sample_rate := 1000; out_samples_per_channel := 10000;
     out_scan_operation := CONTINUOUS; out_scan_flag := AOUT_DEFAULT |}.

(** The assignments of [__init__] before it calls [initDAQ]. *)
Definition DAQ_fields : DAQ :=
  {| daq_device := None; ai_device := None; ao_device := None;
     ai_info := None; ao_info := None; status := IDLE;
     actual_in_rate := 0; actual_out_rate := 0;
     buffer_in := None; buffer_out := None; input_average := 0;
     analog_input_map := default_input_map;
     analog_output_map := default_output_map |}.

(** Attribute assignments [self.x = v]. *)
Definition set_daq_device (v : option DaqDevice) (s : DAQ) : DAQ :=
  {| daq_device := v; ai_device := ai_device s; ao_device := ao_device s;
     ai_info := ai_info s; ao_info := ao_info s; status := status s;
     actual_in_rate := actual_in_rate s; actual_out_rate := actual_out_rate s;
     buffer_in := buffer_in s; buffer_out := buffer_out s;
     input_average := input_average s;
     analog_input_map := analog_input_map s;
     analog_output_map := analog_output_map s |}.

Definition set_ai_device (v : option AiDevice) (s : DAQ) : DAQ :=
  {| daq_device := daq_device s; ai_device := v; ao_device := ao_device s;
     ai_info := ai_info s; ao_info := ao_info s; status := status s;
     actual_in_rate := actual_in_rate s; actual_out_rate := actual_out_rate s;
     buffer_in := buffer_in s; buffer_out := buffer_out s;
     input_average := input_average s;
     analog_input_map := analog_input_map s;
     analog_output_map := analog_output_map s |}.

Definition set_ao_device (v : option AoDevice) (s : DAQ) : DAQ :=
  {| daq_device := daq_device s; ai_device := ai_device s; ao_device := v;
     ai_info := ai_info s; ao_info := ao_info s; status := status s;
     actual_in_rate := actual_in_rate s; actual_out_rate := actual_out_rate s;
     buffer_in := buffer_in s; buffer_out := buffer_out s;
     input_average := input_average s;
     analog_input_map := analog_input_map s;
     analog_output_map := analog_output_map s |}.

Definition set_ai_info (v : option DevInfo) (s : DAQ) : DAQ :=
  {| daq_device := daq_device s; ai_device := ai_device s; ao_device := ao_device s;
     ai_info := v; ao_info := ao_info s; status := status s;
     actual_in_rate := actual_in_rate s; actual_out_rate := actual_out_rate s;
     buffer_in := buffer_in s; buffer_out := buffer_out s;
     input_average := input_average s;
     analog_input_map := analog_input_map s;
     analog_output_map := analog_output_map s |}.

Definition set_ao_info (v : option DevInfo) (s : DAQ) : DAQ :=
  {| daq_device := daq_device s; ai_device := ai_device s; ao_device := ao_device s;
     ai_info := ai_info s; ao_info := v; status := status s;
     actual_in_rate := actual_in_rate s; actual_out_rate := actual_out_rate s;
     buffer_in := buffer_in s; buffer_out := buffer_out s;
     input_average := input_average s;
     analog_input_map := analog_input_map s;
     analog_output_map := analog_output_map s |}.

Definition set_actual_out_rate (v : R) (s : DAQ) : DAQ :=
  {| daq_device := daq_device s; ai_device := ai_device s; ao_device := ao_device s;
     ai_info := ai_info s; ao_info := ao_info s; status := status s;
     actual_in_rate := actual_in_rate s; actual_out_rate := v;
     buffer_in := buffer_in s; buffer_out := buffer_out s;
     input_average := input_average s;
     analog_input_map := analog_input_map s;
     analog_output_map := analog_output_map s |}.

Definition set_input_average (v : R) (s : DAQ) : DAQ :=
  {| daq_device := daq_device s; ai_device := ai_device s; ao_device := ao_device s;
     ai_info := ai_info s; ao_info := ao_info s; status := status s;
     actual_in_rate := actual_in_rate s; actual_out_rate := actual_out_rate s;
     buffer_in := buffer_in s; buffer_out := buffer_out s;
     input_average := v;
     analog_input_map := analog_input_map s;
     analog_output_map := analog_output_map s |}.

Definition set_buffer_out (v : option (list R)) (s : DAQ) : DAQ :=
  {| daq_device := daq_device s; ai_device := ai_device s; ao_device := ao_device s;
     ai_info := ai_info s; ao_info := ao_info s; status := status s;
     actual_in_rate := actual_in_rate s; actual_out_rate := actual_out_rate s;
     buffer_in := buffer_in s; buffer_out := v;
     input_average := input_average s;
     analog_input_map := analog_input_map s;
     analog_output_map := analog_output_map s |}.

(** ** numpy and ctypes helpers *)

(** [np.linspace(start, stop, num, endpoint=False)]: [num] samples
    [k * step + start] with [step = (stop - start) / num]; a negative [num]
    is refused (the message, which also prints [num], is abridged). *)
Definition np_linspace (start stop : R) (num : Z) : result (list R) :=
  if (num <? 0)%Z
  then Raise (ValueError "Number of samples must be non-negative.")
  else
    let step := (stop - start) / IZR num in
    Ok (map (fun k => IZR (Z.of_nat k) * step + start) (seq 0 (Z.to_nat num))).

(** [np.floor] *)
Definition np_floor (x : R) : R := IZR (Int_part x).

(** [np.mean] *)
Definition np_sum (l : list R) : R := fold_right Rplus 0 l.
Definition np_mean (l : list R) : R := np_sum l / INR (List.length l).

(** [create_float_buffer(number_of_channels, samples_per_channel)]: a zeroed
    array of doubles; ctypes refuses a negative length. *)
Definition create_float_buffer (number_of_channels samples_per_channel : Z)
  : result (list R) :=
  let n := (number_of_channels * samples_per_channel)%Z in
  if (n <? 0)%Z
  then Raise (ValueError "Array length must be >= 0")
  else Ok (repeat 0 (Z.to_nat n)).

(** [np.copyto(dst, src)] for one-dimensional arrays: [src] must have the
    length of [dst], or length 1 (it is then broadcast); the result is the
    new content of [dst]. *)
Definition np_copyto (dst src : list R) : result (list R) :=
  if Nat.eqb (List.length src) (List.length dst) then Ok src
  else match src with
       | [x] => Ok (repeat x (List.length dst))
       | _ => Raise (ValueError "could not broadcast input array")
       end.

(** ** The methods of [DAQ] *)

Section Methods.
Local Open Scope py_scope.
Local Open Scope string_scope.
Import St.

Definition NoneType_has_no (attr : string) : exn :=
  AttributeError ("'NoneType' object has no attribute '" ++ attr ++ "'").

(** [self.daq_device.<attr>], [self.ai_device.<attr>],
    [self.ao_device.<attr>]: an attribute of [None] raises. *)
Definition self_daq_device (attr : string) : M DAQ DaqDevice :=
  fun self => match daq_device self with
              | Some d => (Ok d, self)
              | None => (Raise (NoneType_has_no attr), self)
              end.

Definition self_ai_device (attr : string) : M DAQ AiDevice :=
  fun self => match ai_device self with
              | Some d => (Ok d, self)
              | None => (Raise (NoneType_has_no attr), self)
              end.

Definition self_ao_device (attr : string) : M DAQ AoDevice :=
  fun self => match ao_device self with
              | Some d => (Ok d, self)
              | None => (Raise (NoneType_has_no attr), self)
              end.

Definition self_ai_info (attr : string) : M DAQ DevInfo :=
  fun self => match ai_info self with
              | Some i => (Ok i, self)
              | None => (Raise (NoneType_has_no attr), self)
              end.

Definition self_ao_info (attr : string) : M DAQ DevInfo :=
  fun self => match ao_info self with
              | Some i => (Ok i, self)
              | None => (Raise (NoneType_has_no attr), self)
              end.

Definition modify (f : DAQ -> DAQ) : M DAQ unit :=
  fun self => (Ok tt, f self).

Definition newline : string := String (Ascii.ascii_of_nat 10) EmptyString.

(** [initDAQ]; [devices] is what [get_daq_device_inventory(INTERFACE_TYPE)]
    returns.  The [print] before connecting is not modelled. *)
Definition initDAQ (devices : list DaqDeviceDescriptor) : M DAQ unit :=
  let number_of_devices := Z.of_nat (List.length devices) in
  if (number_of_devices =? 0)%Z
  then raise (RuntimeError "Error: No DAQ devices found")
  else if (number_of_devices >? 1)%Z
  then raise (RuntimeError "Error: More than one DAQ device found.")
  else
    match devices with
    | [] => raise (IndexError "list index out of range")
    | d0 :: _ =>
      modify (set_daq_device (Some (DaqDevice_new d0))) ;;
      dev <- self_daq_device "get_ai_device" ;;
      modify (set_ai_device (get_ai_device dev)) ;;
      dev <- self_daq_device "get_ao_device" ;;
      modify (set_ao_device (get_ao_device dev)) ;;
      self <- get ;;
      match ai_device self with
      | None =>
        raise (RuntimeError "Error: The DAQ device does not support analog input")
      | Some _ =>
        match ao_device self with
        | None =>
          raise (RuntimeError "Error: The DAQ device does not support analog output")
        | Some _ =>
          ai <- self_ai_device "get_info" ;;
          modify (set_ai_info (Some (ai_get_info ai))) ;;
          ao <- self_ao_device "get_info" ;;
          modify (set_ao_info (Some (ao_get_info ao))) ;;
          i <- self_ai_info "has_pacer" ;;
          if negb (has_pacer i)
          then raise (RuntimeError
                 (newline ++ "Error: The specified DAQ device does not support hardware paced analog input"))
          else
            o <- self_ao_info "has_pacer" ;;
            if negb (has_pacer o)
            then raise (RuntimeError
                   "Error: The DAQ device does not support paced analog output")
            else
              dev <- self_daq_device "get_descriptor" ;;
              let descriptor := get_descriptor dev in
              dev <- self_daq_device "connect" ;;
              modify (set_daq_device (Some (connect dev))) ;;
              dev <- self_daq_device "is_connected" ;;
              if negb (is_connected dev)
              then raise (RuntimeError "Error: The DAQ device is not connected")
              else ret tt
        end
      end
    end.

(** [DAQ()]: [__init__] sets the attributes and calls [initDAQ]. *)
Definition DAQ_init (devices : list DaqDeviceDescriptor) : result unit * DAQ :=
  initDAQ devices DAQ_fields.

(** [start_output_thread(waveform)]; [waveform.flatten()] of a
    one-dimensional array is the array.  [as_array] gives a view of
    [self.buffer_out], so [copyto] writes the buffer itself. *)
Definition start_output_thread (waveform : list R) : M DAQ unit :=
  self <- get ;;
  let channel := out_channel (analog_output_map self) in
  let voltage_range := out_voltage_range (analog_output_map self) in
  let samples_per_channel := out_samples_per_channel (analog_output_map self) in
  let rate := out_sample_rate (analog_output_map self) in
  let scan_options := out_scan_operation (analog_output_map self) in
  let flags := out_scan_flag (analog_output_map self) in
  buf <- lift (create_float_buffer 1 samples_per_channel) ;;
  modify (set_buffer_out (Some buf)) ;;
  buffer_np <- lift (np_copyto buf waveform) ;;
  modify (set_buffer_out (Some buffer_np)) ;;
  ao <- self_ao_device "a_out_scan" ;;
  modify (set_ao_device (Some (ao_set_status RUNNING ao))) ;;
  modify (set_actual_out_rate (ao_clock ao rate)).

(** The two array expressions of [generate_waveform], at one phase [t]. *)
Definition sine_sample (amplitude offset t : R) : R :=
  amplitude * sin t + offset.

Definition triangle_sample (amplitude offset t : R) : R :=
  amplitude * 2 * (t / PI - np_floor (t / PI + 0.5)) + offset.

(** [generate_waveform(waveform_type, amplitude, offset)] *)
Definition generate_waveform (waveform_type : string) (amplitude offset : R)
  : M DAQ (list R) :=
  self <- get ;;
  let samples_per_channel := out_samples_per_channel (analog_output_map self) in
  t <- lift (np_linspace 0 (2 * PI) samples_per_channel) ;;
  if String.eqb waveform_type "sine"
  then ret (map (sine_sample amplitude offset) t)
  else if String.eqb waveform_type "triangle"
  then ret (map (triangle_sample amplitude offset) t)
  else raise (ValueError "Unsupported waveform type").

(** [calculate_input_average] *)
Definition calculate_input_average : M DAQ R :=
  self <- get ;;
  match buffer_in self with
  | Some input_data =>
    modify (set_input_average (np_mean input_data)) ;;
    self <- get ;;
    ret (input_average self)
  | None => ret (input_average self)
  end.

(** [check_input_thread] and [check_output_thread] *)
Definition check_input_thread : M DAQ bool :=
  ai <- self_ai_device "get_scan_status" ;;
  if ScanStatus_eqb (ai_scan_status ai) RUNNING then ret true else ret false.

Definition check_output_thread : M DAQ bool :=
  ao <- self_ao_device "get_scan_status" ;;
  if ScanStatus_eqb (ao_scan_status ao) RUNNING then ret true else ret false.

(** [close_DAQ]; an object is true in a condition, [None] is false. *)
Definition close_DAQ : M DAQ unit :=
  self <- get ;;
  match daq_device self with
  | None => ret tt
  | Some _ =>
    ai <- self_ai_device "get_scan_status" ;;
    let in_status := ai_scan_status ai in
    ao <- self_ao_device "get_scan_status" ;;
    let out_status := ao_scan_status ao in
    when (ScanStatus_eqb RUNNING in_status)
         (ai <- self_ai_device "scan_stop" ;;
          modify (set_ai_device (Some (ai_set_status IDLE ai)))) ;;
    when (ScanStatus_eqb RUNNING out_status)
         (ao <- self_ao_device "scan_stop" ;;
          modify (set_ao_device (Some (ao_set_status IDLE ao)))) ;;
    dev <- self_daq_device "is_connected" ;;
    when (is_connected dev)
         (dev <- self_daq_device "disconnect" ;;
          modify (set_daq_device (Some (disconnect dev)))) ;;
    dev <- self_daq_device "release" ;;
    modify (set_daq_device (Some (release dev)))
  end.
End Methods.

(** ** [DataProcessor]: filter design and application *)

(** The critical frequency argument of [butter]: a scalar, or the list
    [[low, high]]. *)
Inductive Wn : Type :=
| Scalar (w : R)
| Band (low high : R).

(** The pair [(b, a)] of coefficient arrays. *)
Definition Coeffs : Type := (list R * list R)%type.

Declare Scope exc_scope.
Delimit Scope exc_scope with exc.
Notation "x <- m ;; k" := (Exc.bind m (fun x => k))
  (at level 61, m at next level, right associativity) : exc_scope.

(** [x / y] on Python floats: a zero divisor raises. *)
Definition py_div (x y : R) : result R :=
  if Req_dec_T y 0 then Raise (ZeroDivisionError "float division by zero")
  else Ok (x / y).

Section DataProcessor.
Local Open Scope exc_scope.
Local Open Scope string_scope.

(** [scipy.signal.butter(N, Wn, btype=..., analog=...)] and
    [scipy.signal.filtfilt(b, a, x)]: library routines, taken as given.
    Either may raise. *)
Variable butter : Z -> Wn -> string -> bool -> result Coeffs.
Variable filtfilt : list R -> list R -> list R -> result (list R).

Definition butter_lowpass (cutoff fs : R) (order : Z) : result Coeffs :=
  let nyquist := 0.5 * fs in
  normal_cutoff <- py_div cutoff nyquist ;;
  ba <- butter order (Scalar normal_cutoff) "low" false ;;
  let '(b, a) := ba in
  Ok (b, a).

Definition butter_highpass (cutoff fs : R) (order : Z) : result Coeffs :=
  let nyquist := 0.5 * fs in
  normal_cutoff <- py_div cutoff nyquist ;;
  ba <- butter order (Scalar normal_cutoff) "high" false ;;
  let '(b, a) := ba in
  Ok (b, a).

Definition butter_bandpass (lowcut highcut fs : R) (order : Z) : result Coeffs :=
  let nyquist := 0.5 * fs in
  low <- py_div lowcut nyquist ;;
  high <- py_div highcut nyquist ;;
  ba <- butter order (Band low high) "band" false ;;
  let '(b, a) := ba in
  Ok (b, a).

Definition apply_filter (b a buffer_in : list R) : result (list R) :=
  filtfilt b a buffer_in.

Definition lowpass_filter (cutoff : R) (buffer_in : list R) (fs : R) (order : Z)
  : result (list R) :=
  ba <- butter_lowpass cutoff fs order ;;
  let '(b, a) := ba in
  apply_filter b a buffer_in.

Definition highpass_filter (cutoff : R) (buffer_in : list R) (fs : R) (order : Z)
  : result (list R) :=
  ba <- butter_highpass cutoff fs order ;;
  let '(b, a) := ba in
  apply_filter b a buffer_in.

Definition bandpass_filter (lowcut highcut : R) (buffer_in : list R) (fs : R)
  (order : Z) : result (list R) :=
  ba <- butter_bandpass lowcut highcut fs order ;;
  let '(b, a) := ba in
  apply_filter b a buffer_in.

(** The two-step form of the specification: design, then apply the
    designed coefficients to the buffer. *)
Definition design_then_apply (design : result Coeffs) (buffer_in : list R)
  : result (list R) :=
  match design with
  | Ok (b, a) => apply_filter b a buffer_in
  | Raise e => Raise e
  end.
End DataProcessor.

(** ** The remaining methods of [DAQ], [DataProcessor]'s pipelines and [main] *)

Definition set_buffer_in (v : option (list R)) (s : DAQ) : DAQ :=
  {| daq_device := daq_device s; ai_device := ai_device s; ao_device := ao_device s;
     ai_info := ai_info s; ao_info := ao_info s; status := status s;
     actual_in_rate := actual_in_rate s; actual_out_rate := actual_out_rate s;
     buffer_in := v; buffer_out := buffer_out s;
     input_average := input_average s;
     analog_input_map := analog_input_map s;
     analog_output_map := analog_output_map s |}.

Definition set_actual_in_rate (v : R) (s : DAQ) : DAQ :=
  {| daq_device := daq_device s; ai_device := ai_device s; ao_device := ao_device s;
     ai_info := ai_info s; ao_info := ao_info s; status := status s;
     actual_in_rate := v; actual_out_rate := actual_out_rate s;
     buffer_in := buffer_in s; buffer_out := buffer_out s;
     input_average := input_average s;
     analog_input_map := analog_input_map s;
     analog_output_map := analog_output_map s |}.

(** What the program writes to standard output: a line of text, or the
    array and the average [print_input_data_and_average] prints after their
    labels. *)
Inductive Output : Type :=
| Line (text : string)
| InputData (input_data : list R)
| InputAverage (input_average : R).

(** [str(e)]: the message of an exception. *)
Definition str_exn (e : exn) : string :=
  match e with
  | RuntimeError msg | ValueError msg | AttributeError msg
  | IndexError msg | ZeroDivisionError msg => msg
  end.

Section MoreMethods.
Local Open Scope py_scope.
Local Open Scope string_scope.
Import St.

(** [start_input_thread]: the buffer attribute is assigned before the scan
    is requested. *)
Definition start_input_thread : M DAQ unit :=
  self <- get ;;
  let channel := in_channel (analog_input_map self) in
  let input_mode := in_mode (analog_input_map self) in
  let voltage_range := in_voltage_range (analog_input_map self) in
  let samples_per_channel := in_samples_per_channel (analog_input_map self) in
  let rate := in_sample_rate (analog_input_map self) in
  let scan_options := in_scan_operation (analog_input_map self) in
  let flags := in_scan_flag (analog_input_map self) in
  buf <- lift (create_float_buffer 1 samples_per_channel) ;;
  modify (set_buffer_in (Some buf)) ;;
  ai <- self_ai_device "a_in_scan" ;;
  modify (set_ai_device (Some (ai_set_status RUNNING ai))) ;;
  modify (set_actual_in_rate (ai_clock ai rate)).

(** [print_input_data_and_average]: what it prints; no attribute is
    assigned. *)
Definition print_input_data_and_average (self : DAQ) : list Output :=
  match buffer_in self with
  | Some input_data => [InputData input_data; InputAverage (np_mean input_data)]
  | None => []
  end.

(** What [initDAQ] prints: the "Connecting to" line, reached once the
    single device passed both pacer checks. *)
Definition initDAQ_prints (devices : list DaqDeviceDescriptor) : list Output :=
  match devices with
  | [d] =>
    match hw_ai d, hw_ao d with
    | Some true, Some true =>
      [Line (newline ++ "Connecting to " ++ dev_string d ++ " - please wait...")]
    | _, _ => []
    end
  | _ => []
  end.
End MoreMethods.

Section Pipelines.
Variable A : Type.

(** [for func in functions: data = func(data)], then [return data]; a
    function of the list may raise.  The data keep one type [A] here. *)
Fixpoint run_functions (data : A) (functions : list (A -> result A)) : result A :=
  match functions with
  | [] => Ok data
  | func :: functions' => Exc.bind (func data) (fun data => run_functions data functions')
  end.

Definition preprocess (data : A) (functions : list (A -> result A)) : result A :=
  run_functions data functions.

Definition postprocess (data : A) (functions : list (A -> result A)) : result A :=
  run_functions data functions.

Definition process (data : A) (functions : list (A -> result A)) : result A :=
  run_functions data functions.
End Pipelines.

Arguments run_functions {A} data functions.
Arguments preprocess {A} data functions.
Arguments postprocess {A} data functions.
Arguments process {A} data functions.

Section Main.
Local Open Scope string_scope.

(** How the [try] block of [main] ends: with an exception (the variable
    [daq] is bound only once [DAQ()] has returned), or still in its
    [while True] loop when the iterations counted by [fuel] are used up. *)
Inductive TryBlock : Type :=
| Raised (e : exn) (daq : option DAQ) (stdout : list Output)
| Spinning (daq : DAQ) (stdout : list Output).

(** The [while True] loop; [a() and b()] calls [b] only when [a] is true,
    and [time.sleep(1)] does nothing to the state. *)
Fixpoint main_loop (fuel : nat) (daq : DAQ) (stdout : list Output) : TryBlock :=
  match fuel with
  | O => Spinning daq stdout
  | S fuel' =>
    match check_output_thread daq with
    | (Raise e, daq) => Raised e (Some daq) stdout
    | (Ok false, daq) => main_loop fuel' daq stdout
    | (Ok true, daq) =>
      match check_input_thread daq with
      | (Raise e, daq) => Raised e (Some daq) stdout
      | (Ok false, daq) => main_loop fuel' daq stdout
      | (Ok true, daq) =>
        main_loop fuel' daq
          (stdout ++ Line "Both input and output threads are running."
                  :: print_input_data_and_average daq)
      end
    end
  end.

Definition main_try (devices : list DaqDeviceDescriptor) (fuel : nat) : TryBlock :=
  let stdout := initDAQ_prints devices in
  match DAQ_init devices with
  | (Raise e, _) => Raised e None stdout
  | (Ok _, daq) =>
    match generate_waveform "triangle" 1 0 daq with
    | (Raise e, daq) => Raised e (Some daq) stdout
    | (Ok output_wave, daq) =>
      match start_output_thread output_wave daq with
      | (Raise e, daq) => Raised e (Some daq) stdout
      | (Ok _, daq) =>
        match start_input_thread daq with
        | (Raise e, daq) => Raised e (Some daq) stdout
        | (Ok _, daq) => main_loop fuel daq stdout
        end
      end
    end
  end.

(** The line an [except] clause of [main] prints. *)
Definition except_line (e : exn) : Output :=
  match e with
  | RuntimeError _ => Line ("Runtime error: " ++ str_exn e)
  | ValueError _ => Line ("Value error: " ++ str_exn e)
  | _ => Line ("An unexpected error occurred: " ++ str_exn e)
  end.

(** The [finally] clause: what it prints, and the controller afterwards. *)
Definition main_finally (daq : option DAQ) : list Output * option DAQ :=
  match daq with
  | None => ([Line "DAQ connection closed."], None)
  | Some self =>
    match close_DAQ self with
    | (Ok _, self') => ([Line "DAQ connection closed."], Some self')
    | (Raise e, self') =>
      ([Line ("Error while closing DAQ: " ++ str_exn e);
        Line "DAQ connection closed."], Some self')
    end
  end.

(** How a run of [main] ends: it returns, with what it printed and the
    controller bound to [daq] (if any), or it is still looping. *)
Inductive MainOutcome : Type :=
| Returned (stdout : list Output) (daq : option DAQ)
| Looping (stdout : list Output) (daq : DAQ).

(** [main]; [devices] is the inventory the driver reports.  What
    [__del__] does once the interpreter collects the object is not part of
    it. *)
Definition main (devices : list DaqDeviceDescriptor) (fuel : nat) : MainOutcome :=
  match main_try devices fuel with
  | Spinning daq stdout => Looping stdout daq
  | Raised e daq stdout =>
    let (closing, daq') := main_finally daq in
    Returned (stdout ++ except_line e :: closing) daq'
  end.
End Main.

(** ** Names used in the statements *)

Section Fixtures.
Local Open Scope string_scope.

(** The messages of the [RuntimeError]s [initDAQ] raises, in source order. *)
Definition msg_no_device : string := "Error: No DAQ devices found".

Definition msg_many_devices : string := "Error: More than one DAQ device found.".

Definition msg_no_input : string :=
  "Error: The DAQ device does not support analog input".

Definition msg_no_output : string :=
  "Error: The DAQ device does not support analog output".

Definition msg_no_paced_input : string :=
  newline ++ "Error: The specified DAQ device does not support hardware paced analog input".

Definition msg_no_paced_output : string :=
  "Error: The DAQ device does not support paced analog output".

Definition msg_not_connected : string := "Error: The DAQ device is not connected".

(** The attributes [initDAQ] has assigned once both subsystems were
    looked up, and once their infos were read. *)
Definition probed (d : DaqDeviceDescriptor) (self : DAQ) : DAQ :=
  let dev := DaqDevice_new d in
  set_ao_device (get_ao_device dev)
    (set_ai_device (get_ai_device dev) (set_daq_device (Some dev) self)).

Definition informed (d : DaqDeviceDescriptor) (pi po : bool) (self : DAQ) : DAQ :=
  set_ao_info (Some {| has_pacer := po |})
    (set_ai_info (Some {| has_pacer := pi |}) (probed d self)).

(** A device with an analog output subsystem and no analog input
    subsystem. *)
Definition output_only_device : DaqDeviceDescriptor :=
  {| dev_string := "output only"; hw_ai := None; hw_ao := Some true;
     hw_connects := true; hw_clock := fun rate => rate |}.

(** A device with both subsystems, both hardware paced, that connects. *)
Definition paced_device : DaqDeviceDescriptor :=
  {| dev_string := "paced"; hw_ai := Some true; hw_ao := Some true;
     hw_connects := true; hw_clock := fun rate => rate |}.

(** The controller after a successful construction, with the hardware
    status of both directions at [st]. *)
Definition controller_with_status (st : ScanStatus) : DAQ :=
  let self := snd (DAQ_init [paced_device]) in
  set_ao_device (option_map (ao_set_status st) (ao_device self))
    (set_ai_device (option_map (ai_set_status st) (ai_device self)) self).

(** The phase of sample [k] among [n]: the element [np.linspace] computes
    for [start = 0], [stop = 2 * pi]. *)
Definition phase (n : Z) (k : nat) : R :=
  IZR (Z.of_nat k) * ((2 * PI - 0) / IZR n) + 0.

Definition phases (n : Z) : list R := map (phase n) (seq 0 (Z.to_nat n)).

(** A stand-in for [butter] that only checks the range of the digital
    critical frequencies. *)
Definition range_checking_butter (N : Z) (w : Wn) (btype : string)
  (analog : bool) : result Coeffs :=
  let inside x := if Rlt_dec 0 x then if Rlt_dec x 1 then true else false else false in
  let ok := match w with
            | Scalar x => inside x
            | Band lo hi => inside lo && inside hi
            end in
  if ok then Ok ([1], [1])
  else Raise (ValueError "Digital filter critical frequencies must be 0 < Wn < 1").
End Fixtures.

(** * Properties *)

(** ** [initDAQ] *)

Section InitDAQ.
Local Open Scope string_scope.

Lemma initDAQ_nil (self : DAQ) :
  initDAQ [] self = (Raise (RuntimeError msg_no_device), self).
Proof. reflexivity. Qed.

Lemma initDAQ_many (d d' : DaqDeviceDescriptor) (l : list DaqDeviceDescriptor)
  (self : DAQ) :
  initDAQ (d :: d' :: l) self = (Raise (RuntimeError msg_many_devices), self).
Proof.
  unfold initDAQ.
  assert (E0 : (Z.of_nat (List.length (d :: d' :: l)) =? 0)%Z = false)
    by (apply Z.eqb_neq; simpl List.length; lia).
  assert (E1 : (Z.of_nat (List.length (d :: d' :: l)) >? 1)%Z = true)
    by (apply Z.gtb_lt; simpl List.length; lia).
  rewrite E0, E1. reflexivity.
Qed.

Lemma initDAQ_single (d : DaqDeviceDescriptor) (self : DAQ) :
  initDAQ [d] self =
  match hw_ai d, hw_ao d with
  | None, _ => (Raise (RuntimeError msg_no_input), probed d self)
  | Some _, None => (Raise (RuntimeError msg_no_output), probed d self)
  | Some pi, Some po =>
    if negb pi then (Raise (RuntimeError msg_no_paced_input), informed d pi po self)
    else if negb po then (Raise (RuntimeError msg_no_paced_output), informed d pi po self)
    else if negb (hw_connects d)
         then (Raise (RuntimeError msg_not_connected),
               set_daq_device (Some (connect (DaqDevice_new d))) (informed d pi po self))
         else (Ok tt,
               set_daq_device (Some (connect (DaqDevice_new d))) (informed d pi po self))
  end.
Proof.
  destruct d as [name [pi|] [po|] c clk]; simpl; try reflexivity;
    destruct pi; try reflexivity; destruct po; try reflexivity;
    destruct c; reflexivity.
Qed.

(** C3. [initDAQ] raises the "no devices" error exactly when the inventory
    is empty and the "more than one device" error exactly when it holds
    more than one device; with a single device that has both subsystems it
    raises a "no hardware pacer" error when either direction lacks the
    pacer, the "not connected" error when [is_connected()] is false after
    [connect], and returns normally otherwise; a single device that lacks a
    subsystem altogether gets the "does not support analog input (output)"
    error. *)
Theorem initDAQ_failure_modes :
  forall (devices : list DaqDeviceDescriptor) (self : DAQ),
    let outcome := fst (initDAQ devices self) in
    (outcome = Raise (RuntimeError msg_no_device) <-> List.length devices = 0%nat) /\
    (outcome = Raise (RuntimeError msg_many_devices) <-> (1 < List.length devices)%nat) /\
    (forall d pi po,
        devices = [d] -> hw_ai d = Some pi -> hw_ao d = Some po ->
        (pi = false -> outcome = Raise (RuntimeError msg_no_paced_input)) /\
        (pi = true -> po = false ->
         outcome = Raise (RuntimeError msg_no_paced_output)) /\
        (pi = true -> po = true -> hw_connects d = false ->
         outcome = Raise (RuntimeError msg_not_connected)) /\
        (pi = true -> po = true -> hw_connects d = true -> outcome = Ok tt)) /\
    (forall d,
        devices = [d] ->
        (hw_ai d = None -> outcome = Raise (RuntimeError msg_no_input)) /\
        (hw_ai d <> None -> hw_ao d = None ->
         outcome = Raise (RuntimeError msg_no_output))).
Proof.
  intros devices self outcome; subst outcome.
  destruct devices as [|d [|d' l]].
  - rewrite initDAQ_nil; simpl.
    split; [split; intros; [reflexivity | reflexivity]|].
    split; [split; intros H; [discriminate H | inversion H]|].
    split; intros d0; intros; discriminate.
  - rewrite initDAQ_single.
    split; [|split; [|split]].
    + simpl List.length. split; [|discriminate].
      destruct (hw_ai d) as [pi|], (hw_ao d) as [po|];
        try destruct pi; try destruct po; try destruct (hw_connects d);
        simpl; intro H; discriminate H.
    + simpl List.length. split; [|lia].
      destruct (hw_ai d) as [pi|], (hw_ao d) as [po|];
        try destruct pi; try destruct po; try destruct (hw_connects d);
        simpl; intro H; discriminate H.
    + intros d0 pi po E Hi Ho. injection E as <-. rewrite Hi, Ho.
      split; [intros ->; reflexivity|].
      split; [intros -> ->; reflexivity|].
      split; intros -> -> ->; reflexivity.
    + intros d0 E. injection E as <-.
      split.
      * intros ->. reflexivity.
      * intros Hi Ho. rewrite Ho.
        destruct (hw_ai d) as [pi|]; [reflexivity | contradiction Hi; reflexivity].
  - rewrite initDAQ_many; simpl.
    split; [split; discriminate|].
    split; [split; intros; [lia | reflexivity]|].
    split; intros d0; intros; discriminate.
Qed.
End InitDAQ.

(** ** [close_DAQ] *)

Section CloseDAQ.
Local Open Scope string_scope.

(** Nothing to do on an object that holds no device handle. *)
Lemma close_DAQ_without_handle (self : DAQ) :
  daq_device self = None -> close_DAQ self = (Ok tt, self).
Proof. intro H. unfold close_DAQ, St.bind, St.get. rewrite H. reflexivity. Qed.

(** With the handle and both subsystems present the teardown runs to its
    end: no scan is left running and the handle ends disconnected and
    released. *)
Lemma close_DAQ_with_subsystems (self : DAQ) (dev : DaqDevice)
  (ai : AiDevice) (ao : AoDevice) :
  daq_device self = Some dev -> ai_device self = Some ai ->
  ao_device self = Some ao ->
  exists self' dev' ai' ao',
    close_DAQ self = (Ok tt, self') /\
    daq_device self' = Some dev' /\ ai_device self' = Some ai' /\
    ao_device self' = Some ao' /\
    is_connected dev' = false /\ is_released dev' = true /\
    ai_scan_status ai' <> RUNNING /\ ao_scan_status ao' <> RUNNING.
Proof.
  intros Hd Hi Ho. destruct self; simpl in *; subst.
  destruct dev as [desc c r], ai as [ii si ci], ao as [io so co].
  unfold close_DAQ, St.bind, St.get, self_ai_device, self_ao_device,
    self_daq_device, St.when, modify, St.ret; simpl.
  destruct si, so, c; simpl;
    do 4 eexists; repeat split; simpl; try reflexivity; discriminate.
Qed.

(** The attribute lookup on a missing subsystem raises before anything is
    stopped, disconnected or released. *)
Lemma close_DAQ_without_input (self : DAQ) (dev : DaqDevice) :
  daq_device self = Some dev -> ai_device self = None ->
  close_DAQ self = (Raise (NoneType_has_no "get_scan_status"), self).
Proof.
  intros Hd Hi. unfold close_DAQ, St.bind, St.get, self_ai_device.
  rewrite Hd, Hi. reflexivity.
Qed.

Lemma close_DAQ_without_output (self : DAQ) (dev : DaqDevice) (ai : AiDevice) :
  daq_device self = Some dev -> ai_device self = Some ai ->
  ao_device self = None ->
  close_DAQ self = (Raise (NoneType_has_no "get_scan_status"), self).
Proof.
  intros Hd Hi Ho.
  unfold close_DAQ, St.bind, St.get, self_ai_device, self_ao_device.
  rewrite Hd, Hi, Ho. reflexivity.
Qed.

(** A second call after a completed one completes as well (the driver's
    own refusals on a released handle are outside this model). *)
Lemma close_DAQ_twice (self : DAQ) (dev : DaqDevice)
  (ai : AiDevice) (ao : AoDevice) :
  daq_device self = Some dev -> ai_device self = Some ai ->
  ao_device self = Some ao ->
  fst (close_DAQ (snd (close_DAQ self))) = Ok tt.
Proof.
  intros Hd Hi Ho.
  destruct (close_DAQ_with_subsystems self dev ai ao Hd Hi Ho)
    as (s1 & d1 & a1 & o1 & E & Hd1 & Hi1 & Ho1 & _).
  rewrite E; simpl.
  destruct (close_DAQ_with_subsystems s1 d1 a1 o1 Hd1 Hi1 Ho1)
    as (s2 & ? & ? & ? & E2 & _).
  rewrite E2; reflexivity.
Qed.

(** C1. Constructing the controller against a single device without an
    analog input subsystem fails in [initDAQ] and leaves the handle set
    and [ai_device] at [None]; [close_DAQ] on that object raises
    [AttributeError] and changes nothing, so the handle stays unreleased. *)
Theorem close_DAQ_raises_after_failed_initDAQ :
  let self := snd (DAQ_init [output_only_device]) in
  fst (DAQ_init [output_only_device]) = Raise (RuntimeError msg_no_input) /\
  daq_device self = Some (DaqDevice_new output_only_device) /\
  ai_device self = None /\
  close_DAQ self =
    (Raise (AttributeError "'NoneType' object has no attribute 'get_scan_status'"),
     self) /\
  option_map is_released (daq_device (snd (close_DAQ self))) = Some false.
Proof.
  unfold DAQ_init. rewrite initDAQ_single. simpl.
  repeat split; reflexivity.
Qed.
End CloseDAQ.

(** ** Polling *)

Section Polling.
Local Open Scope string_scope.

(** A poll reads the status and compares it with [RUNNING]; nothing is
    assigned. *)
Lemma check_input_thread_eq (self : DAQ) (ai : AiDevice) :
  ai_device self = Some ai ->
  check_input_thread self = (Ok (ScanStatus_eqb (ai_scan_status ai) RUNNING), self).
Proof.
  intro Hi. unfold check_input_thread, St.bind, self_ai_device. rewrite Hi.
  destruct (ScanStatus_eqb (ai_scan_status ai) RUNNING); reflexivity.
Qed.

Lemma check_output_thread_eq (self : DAQ) (ao : AoDevice) :
  ao_device self = Some ao ->
  check_output_thread self = (Ok (ScanStatus_eqb (ao_scan_status ao) RUNNING), self).
Proof.
  intro Ho. unfold check_output_thread, St.bind, self_ao_device. rewrite Ho.
  destruct (ScanStatus_eqb (ao_scan_status ao) RUNNING); reflexivity.
Qed.

(** C9. With both subsystems present, a poll returns [True] when the
    hardware status is [RUNNING] and [False] for every other status; it
    raises nothing and leaves every attribute of the controller as it
    was. *)
Theorem check_thread_reports_running :
  forall (self : DAQ) (ai : AiDevice) (ao : AoDevice),
    ai_device self = Some ai -> ao_device self = Some ao ->
    (ai_scan_status ai = RUNNING -> check_input_thread self = (Ok true, self)) /\
    (ai_scan_status ai <> RUNNING -> check_input_thread self = (Ok false, self)) /\
    (ao_scan_status ao = RUNNING -> check_output_thread self = (Ok true, self)) /\
    (ao_scan_status ao <> RUNNING -> check_output_thread self = (Ok false, self)).
Proof.
  intros self ai ao Hi Ho.
  rewrite (check_input_thread_eq self ai Hi), (check_output_thread_eq self ao Ho).
  destruct (ai_scan_status ai), (ao_scan_status ao); simpl;
    repeat split; intro H; try discriminate H; try reflexivity;
    exfalso; apply H; reflexivity.
Qed.

Lemma controller_ai_device (st : ScanStatus) :
  ai_device (controller_with_status st)
  = Some {| ai_get_info := {| has_pacer := true |}; ai_scan_status := st;
            ai_clock := fun rate => rate |}.
Proof.
  unfold controller_with_status, DAQ_init. rewrite initDAQ_single. reflexivity.
Qed.

Lemma controller_ao_device (st : ScanStatus) :
  ao_device (controller_with_status st)
  = Some {| ao_get_info := {| has_pacer := true |}; ao_scan_status := st;
            ao_clock := fun rate => rate |}.
Proof.
  unfold controller_with_status, DAQ_init. rewrite initDAQ_single. reflexivity.
Qed.

Lemma controller_status (st : ScanStatus) : status (controller_with_status st) = IDLE.
Proof.
  unfold controller_with_status, DAQ_init. rewrite initDAQ_single. reflexivity.
Qed.

Lemma check_thread_witness :
  check_input_thread (controller_with_status RUNNING)
    = (Ok true, controller_with_status RUNNING) /\
  check_output_thread (controller_with_status RUNNING)
    = (Ok true, controller_with_status RUNNING).
Proof.
  destruct (check_thread_reports_running (controller_with_status RUNNING) _ _
              (controller_ai_device RUNNING) (controller_ao_device RUNNING))
    as (Hin & _ & Hout & _).
  split; [apply Hin | apply Hout]; reflexivity.
Defined.

(** C9, as stated, fails: when the hardware reports an error the poll
    answers [False], as it does for an idle scan, and the controller
    (its [status] attribute included) is unchanged: no fault is recorded
    or raised. *)
Lemma check_thread_on_error_changes_nothing :
  check_input_thread (controller_with_status ERROR)
    = (Ok false, controller_with_status ERROR) /\
  check_output_thread (controller_with_status ERROR)
    = (Ok false, controller_with_status ERROR) /\
  check_input_thread (controller_with_status IDLE)
    = (Ok false, controller_with_status IDLE) /\
  status (snd (check_input_thread (controller_with_status ERROR))) = IDLE.
Proof.
  rewrite (check_input_thread_eq _ _ (controller_ai_device ERROR)).
  rewrite (check_output_thread_eq _ _ (controller_ao_device ERROR)).
  rewrite (check_input_thread_eq _ _ (controller_ai_device IDLE)).
  cbn [snd ScanStatus_eqb ai_scan_status ao_scan_status].
  split; [reflexivity | split; [reflexivity | split; [reflexivity | ]]].
  exact (controller_status ERROR).
Qed.
End Polling.

(** ** [generate_waveform] and the output buffer *)

Section Waveform.
Local Open Scope string_scope.

Lemma np_linspace_phases (n : Z) :
  (0 <= n)%Z -> np_linspace 0 (2 * PI) n = Ok (phases n).
Proof.
  intro Hn. unfold np_linspace.
  destruct (Z.ltb_spec n 0) as [Hlt|_]; [lia | reflexivity].
Qed.

Lemma np_linspace_negative (n : Z) :
  (n < 0)%Z ->
  np_linspace 0 (2 * PI) n = Raise (ValueError "Number of samples must be non-negative.").
Proof.
  intro Hn. unfold np_linspace.
  destruct (Z.ltb_spec n 0) as [_|Hge]; [reflexivity | lia].
Qed.

Lemma phases_length (n : Z) : List.length (phases n) = Z.to_nat n.
Proof. unfold phases. rewrite length_map, length_seq. reflexivity. Qed.

Lemma phases_nth (n : Z) (k : nat) :
  (k < Z.to_nat n)%nat -> nth k (phases n) 0 = phase n k.
Proof.
  intro Hk. unfold phases.
  rewrite (nth_indep _ 0 (phase n 0%nat)) by (rewrite length_map, length_seq; exact Hk).
  rewrite map_nth, seq_nth by exact Hk. reflexivity.
Qed.

Lemma generate_waveform_sine (self : DAQ) (amplitude offset : R) :
  (0 <= out_samples_per_channel (analog_output_map self))%Z ->
  generate_waveform "sine" amplitude offset self =
  (Ok (map (sine_sample amplitude offset)
           (phases (out_samples_per_channel (analog_output_map self)))), self).
Proof.
  intro Hn. unfold generate_waveform, St.bind, St.get, St.lift.
  rewrite (np_linspace_phases _ Hn). reflexivity.
Qed.

Lemma generate_waveform_triangle (self : DAQ) (amplitude offset : R) :
  (0 <= out_samples_per_channel (analog_output_map self))%Z ->
  generate_waveform "triangle" amplitude offset self =
  (Ok (map (triangle_sample amplitude offset)
           (phases (out_samples_per_channel (analog_output_map self)))), self).
Proof.
  intro Hn. unfold generate_waveform, St.bind, St.get, St.lift.
  rewrite (np_linspace_phases _ Hn). reflexivity.
Qed.

(** C8. A shape other than "sine" and "triangle" makes [generate_waveform]
    raise [ValueError]: no array is returned and no attribute of the
    controller changes; with a non-negative sample count the error is the
    "Unsupported waveform type" one of the final [else]. *)
Theorem generate_waveform_unsupported :
  forall (self : DAQ) (waveform_type : string) (amplitude offset : R),
    waveform_type <> "sine" -> waveform_type <> "triangle" ->
    (exists msg,
        generate_waveform waveform_type amplitude offset self
        = (Raise (ValueError msg), self)) /\
    ((0 <= out_samples_per_channel (analog_output_map self))%Z ->
     generate_waveform waveform_type amplitude offset self
     = (Raise (ValueError "Unsupported waveform type"), self)).
Proof.
  intros self w amplitude offset Hs Ht.
  apply String.eqb_neq in Hs. apply String.eqb_neq in Ht.
  assert (Hnonneg :
    (0 <= out_samples_per_channel (analog_output_map self))%Z ->
    generate_waveform w amplitude offset self
    = (Raise (ValueError "Unsupported waveform type"), self)).
  { intro Hn. unfold generate_waveform, St.bind, St.get, St.lift.
    rewrite (np_linspace_phases _ Hn), Hs, Ht. reflexivity. }
  split; [|exact Hnonneg].
  destruct (Z.lt_ge_cases (out_samples_per_channel (analog_output_map self)) 0)
    as [Hneg|Hn].
  - eexists. unfold generate_waveform, St.bind, St.get, St.lift.
    rewrite (np_linspace_negative _ Hneg). reflexivity.
  - eexists. apply Hnonneg, Hn.
Qed.

Lemma generate_waveform_unsupported_witness :
  "quadrature" <> "sine" /\ "quadrature" <> "triangle" /\
  generate_waveform "quadrature" 1 0 DAQ_fields
  = (Raise (ValueError "Unsupported waveform type"), DAQ_fields).
Proof.
  assert (H1 : "quadrature" <> "sine") by discriminate.
  assert (H2 : "quadrature" <> "triangle") by discriminate.
  split; [exact H1 | split; [exact H2 | ]].
  apply (proj2 (generate_waveform_unsupported DAQ_fields "quadrature" 1 0 H1 H2)).
  simpl. lia.
Defined.

Lemma create_float_buffer_zeros (n : Z) :
  (0 <= n)%Z -> create_float_buffer 1 n = Ok (repeat 0 (Z.to_nat n)).
Proof.
  intro Hn. unfold create_float_buffer.
  destruct (Z.ltb_spec (1 * n) 0) as [Hlt|_]; [lia|].
  rewrite Z.mul_1_l. reflexivity.
Qed.

Lemma np_copyto_same_length (dst src : list R) :
  List.length src = List.length dst -> np_copyto dst src = Ok src.
Proof. intro H. unfold np_copyto. rewrite H, Nat.eqb_refl. reflexivity. Qed.

(** C10. For a supported shape and a non-negative sample count,
    [generate_waveform] returns an array of exactly [samples_per_channel]
    samples; [start_output_thread] allocates a buffer of that same length
    and the copy replaces its whole content by the waveform: afterwards
    [buffer_out] is the waveform, sample for sample. *)
Theorem generated_waveform_fills_output_buffer :
  forall (self : DAQ) (waveform_type : string) (amplitude offset : R),
    let n := out_samples_per_channel (analog_output_map self) in
    (0 <= n)%Z -> waveform_type = "sine" \/ waveform_type = "triangle" ->
    exists waveform buf,
      generate_waveform waveform_type amplitude offset self = (Ok waveform, self) /\
      Z.of_nat (List.length waveform) = n /\
      create_float_buffer 1 n = Ok buf /\
      List.length buf = List.length waveform /\
      np_copyto buf waveform = Ok waveform /\
      buffer_out (snd (start_output_thread waveform self)) = Some waveform.
Proof.
  intros self w amplitude offset n Hn Hw.
  assert (Hgen : exists waveform,
             generate_waveform w amplitude offset self = (Ok waveform, self) /\
             List.length waveform = Z.to_nat n).
  { destruct Hw as [-> | ->].
    - eexists; split; [apply generate_waveform_sine, Hn|].
      rewrite length_map. apply phases_length.
    - eexists; split; [apply generate_waveform_triangle, Hn|].
      rewrite length_map. apply phases_length. }
  destruct Hgen as (waveform & Hgen & Hlen).
  assert (Hbuf : List.length (repeat 0 (Z.to_nat n)) = List.length waveform)
    by (rewrite repeat_length; symmetry; exact Hlen).
  exists waveform, (repeat 0 (Z.to_nat n)).
  repeat split.
  - exact Hgen.
  - rewrite Hlen. apply Z2Nat.id, Hn.
  - apply create_float_buffer_zeros, Hn.
  - exact Hbuf.
  - apply np_copyto_same_length. symmetry; exact Hbuf.
  - unfold start_output_thread, St.bind, St.get, St.lift, modify.
    fold n. rewrite (create_float_buffer_zeros n Hn).
    rewrite (np_copyto_same_length _ _ (eq_sym Hbuf)).
    unfold self_ao_device; simpl.
    destruct (ao_device self); reflexivity.
Qed.

Lemma generated_waveform_fills_output_buffer_witness :
  exists waveform,
    generate_waveform "triangle" 1 0 DAQ_fields = (Ok waveform, DAQ_fields) /\
    Z.of_nat (List.length waveform) = 10000%Z /\
    buffer_out (snd (start_output_thread waveform DAQ_fields)) = Some waveform.
Proof.
  destruct (generated_waveform_fills_output_buffer DAQ_fields "triangle" 1 0)
    as (waveform & buf & Hgen & Hlen & _ & _ & _ & Hout).
  - simpl. lia.
  - right. reflexivity.
  - exists waveform. repeat split; assumption.
Defined.
End Waveform.

(** ** The sine waveform *)

Section Sine.
Local Open Scope string_scope.

Lemma np_sum_app (l1 l2 : list R) : np_sum (l1 ++ l2) = np_sum l1 + np_sum l2.
Proof.
  unfold np_sum. induction l1 as [|x l1 IH]; simpl.
  - lra.
  - rewrite IH. lra.
Qed.

(** Sums over [0 .. m-1], split at either end. *)
Lemma np_sum_seq_last (g : nat -> R) (m : nat) :
  np_sum (map g (seq 0 (S m))) = np_sum (map g (seq 0 m)) + g m.
Proof.
  rewrite seq_S, map_app, np_sum_app. simpl. lra.
Qed.

Lemma np_sum_seq_first (g : nat -> R) (m : nat) :
  np_sum (map g (seq 0 (S m))) = g 0%nat + np_sum (map (fun k => g (S k)) (seq 0 m)).
Proof.
  simpl. rewrite <- seq_shift, map_map. reflexivity.
Qed.

Lemma np_sum_ext (g h : nat -> R) (m : nat) :
  (forall k, (k < m)%nat -> g k = h k) ->
  np_sum (map g (seq 0 m)) = np_sum (map h (seq 0 m)).
Proof.
  intro H. f_equal. apply map_ext_in. intros k Hk.
  apply in_seq in Hk. apply H. lia.
Qed.

Lemma np_sum_shift (g : nat -> R) (m : nat) :
  np_sum (map (fun k => g (S k)) (seq 0 m)) + g 0%nat
  = np_sum (map g (seq 0 m)) + g m.
Proof.
  induction m as [|m IH].
  - simpl. lra.
  - rewrite (np_sum_seq_last (fun k => g (S k))), (np_sum_seq_last g). lra.
Qed.

(** Summing from the far end: the terms [g m, g (m-1), ..., g 1]. *)
Lemma np_sum_reverse (g : nat -> R) (m : nat) :
  np_sum (map (fun k => g (m - k)%nat) (seq 0 m))
  = np_sum (map (fun k => g (S k)) (seq 0 m)).
Proof.
  revert g. induction m as [|m IH]; intro g.
  - reflexivity.
  - rewrite np_sum_seq_first.
    rewrite (np_sum_seq_last (fun k => g (S k))).
    replace (S m - 0)%nat with (S m) by lia.
    rewrite <- (IH g).
    rewrite (np_sum_ext (fun k => g (S m - S k)%nat) (fun k => g (m - k)%nat))
      by (intros; reflexivity).
    lra.
Qed.

Lemma np_sum_scale (c : R) (g : nat -> R) (m : nat) :
  np_sum (map (fun k => c * g k) (seq 0 m)) = c * np_sum (map g (seq 0 m)).
Proof.
  induction m as [|m IH].
  - simpl. lra.
  - rewrite !np_sum_seq_last, IH. lra.
Qed.

Lemma phase_eq (n : Z) (k : nat) :
  (0 < n)%Z -> phase n k = 2 * PI * INR k / IZR n.
Proof.
  intro Hn. unfold phase. rewrite <- INR_IZR_INZ.
  field. apply not_0_IZR. lia.
Qed.

Lemma phase_mirror (n : Z) (k : nat) :
  (0 < n)%Z -> (k <= Z.to_nat n)%nat ->
  sin (phase n (Z.to_nat n - k)) = - sin (phase n k).
Proof.
  intros Hn Hk.
  assert (HN : IZR n <> 0) by (apply not_0_IZR; lia).
  assert (HI : INR (Z.to_nat n) = IZR n)
    by (rewrite INR_IZR_INZ, Z2Nat.id by lia; reflexivity).
  rewrite !phase_eq by exact Hn.
  rewrite minus_INR by exact Hk. rewrite HI.
  replace (2 * PI * (IZR n - INR k) / IZR n)
    with (2 * PI - 2 * PI * INR k / IZR n) by (field; exact HN).
  rewrite sin_minus, sin_2PI, cos_2PI. lra.
Qed.

(** The sines of [n] equally spaced phases over one turn add up to 0. *)
Lemma sum_sin_phases (n : Z) :
  (0 < n)%Z ->
  np_sum (map (fun k => sin (phase n k)) (seq 0 (Z.to_nat n))) = 0.
Proof.
  intro Hn. set (m := Z.to_nat n). set (g := fun k => sin (phase n k)).
  assert (HN : IZR n <> 0) by (apply not_0_IZR; lia).
  assert (HI : INR m = IZR n)
    by (unfold m; rewrite INR_IZR_INZ, Z2Nat.id by lia; reflexivity).
  assert (H0 : g 0%nat = 0).
  { unfold g. rewrite phase_eq by exact Hn. simpl INR.
    replace (2 * PI * 0 / IZR n) with 0 by (field; exact HN). apply sin_0. }
  assert (Hm : g m = 0).
  { unfold g. rewrite phase_eq by exact Hn. rewrite HI.
    replace (2 * PI * IZR n / IZR n) with (2 * PI) by (field; exact HN).
    apply sin_2PI. }
  assert (Hrev : np_sum (map (fun k => g (m - k)%nat) (seq 0 m))
                 = - np_sum (map g (seq 0 m))).
  { rewrite (np_sum_ext (fun k => g (m - k)%nat) (fun k => (-1) * g k)).
    - rewrite np_sum_scale. lra.
    - intros k Hk. unfold g, m. rewrite phase_mirror by (fold m; lia). lra. }
  pose proof (np_sum_reverse g m) as Hr.
  pose proof (np_sum_shift g m) as Hs.
  lra.
Qed.

Lemma sine_nth (n : Z) (amplitude offset : R) (k : nat) :
  (0 < n)%Z -> (k < Z.to_nat n)%nat ->
  nth k (map (sine_sample amplitude offset) (phases n)) 0
  = amplitude * sin (2 * PI * INR k / IZR n) + offset.
Proof.
  intros Hn Hk.
  rewrite (nth_indep _ 0 (sine_sample amplitude offset 0))
    by (rewrite length_map, phases_length; exact Hk).
  rewrite map_nth, phases_nth by exact Hk.
  unfold sine_sample. rewrite phase_eq by exact Hn. reflexivity.
Qed.

Lemma sine_sum (n : Z) (amplitude : R) :
  (0 < n)%Z -> np_sum (map (sine_sample amplitude 0) (phases n)) = 0.
Proof.
  intro Hn. unfold phases. rewrite map_map.
  rewrite (np_sum_ext _ (fun k => amplitude * sin (phase n k)))
    by (intros; unfold sine_sample; lra).
  rewrite np_sum_scale, sum_sin_phases by exact Hn. lra.
Qed.

Lemma sine_sample_bound (amplitude t : R) :
  Rabs (amplitude * sin t + 0) <= Rabs amplitude.
Proof.
  rewrite Rplus_0_r, Rabs_mult.
  assert (Hs : Rabs (sin t) <= 1)
    by (apply Rabs_le; pose proof (SIN_bound t); lra).
  pose proof (Rabs_pos amplitude). nra.
Qed.

(** C4. For a positive sample count [n], the sine output has [n] samples,
    sample [k] being [amplitude * sin (2 pi k / n) + offset] at a phase in
    [[0, 2 pi)]; with offset 0 its mean is 0 and no sample exceeds
    [|amplitude|] in absolute value. *)
Theorem sine_waveform_samples :
  forall (self : DAQ) (amplitude offset : R),
    let n := out_samples_per_channel (analog_output_map self) in
    (0 < n)%Z ->
    exists waveform,
      generate_waveform "sine" amplitude offset self = (Ok waveform, self) /\
      Z.of_nat (List.length waveform) = n /\
      (forall k, (k < List.length waveform)%nat ->
         0 <= 2 * PI * INR k / IZR n < 2 * PI /\
         nth k waveform 0 = amplitude * sin (2 * PI * INR k / IZR n) + offset) /\
      (offset = 0 ->
         np_mean waveform = 0 /\
         forall k, (k < List.length waveform)%nat ->
           Rabs (nth k waveform 0) <= Rabs amplitude).
Proof.
  intros self amplitude offset n Hn.
  exists (map (sine_sample amplitude offset) (phases n)).
  assert (Hlen : List.length (map (sine_sample amplitude offset) (phases n)) = Z.to_nat n)
    by (rewrite length_map; apply phases_length).
  assert (HN : 0 < IZR n) by (apply IZR_lt; exact Hn).
  split; [apply generate_waveform_sine; fold n; lia|].
  split; [rewrite Hlen; apply Z2Nat.id; lia|].
  split.
  - intros k Hk. rewrite Hlen in Hk. split.
    + assert (Hk0 : 0 <= INR k) by apply pos_INR.
      assert (Hkn : INR k < IZR n).
      { rewrite INR_IZR_INZ. apply IZR_lt. lia. }
      pose proof PI_RGT_0 as Hpi.
      split.
      * apply Rmult_le_pos; [nra | left; apply Rinv_0_lt_compat; exact HN].
      * apply (Rmult_lt_reg_r (IZR n)); [exact HN|].
        replace (2 * PI * INR k / IZR n * IZR n) with (2 * PI * INR k)
          by (field; lra).
        nra.
    + apply sine_nth; assumption.
  - intros ->. split.
    + unfold np_mean. rewrite sine_sum by exact Hn. unfold Rdiv. apply Rmult_0_l.
    + intros k Hk. rewrite Hlen in Hk.
      rewrite sine_nth by assumption. apply sine_sample_bound.
Qed.

Lemma sine_waveform_samples_witness :
  exists waveform,
    generate_waveform "sine" 1 0 DAQ_fields = (Ok waveform, DAQ_fields) /\
    Z.of_nat (List.length waveform) = 10000%Z /\
    np_mean waveform = 0.
Proof.
  destruct (sine_waveform_samples DAQ_fields 1 0) as (w & Hgen & Hlen & _ & Hzero).
  - simpl. lia.
  - exists w. split; [exact Hgen | split; [exact Hlen | ]].
    apply Hzero. reflexivity.
Defined.

(** C4, as stated for every amplitude, fails for a negative one: with
    amplitude -1 and the default 10000 samples, sample 2500 (phase pi/2) is
    -1, whose absolute value 1 is not at most the amplitude -1. *)
Lemma sine_negative_amplitude_exceeds :
  exists waveform,
    generate_waveform "sine" (-1) 0 DAQ_fields = (Ok waveform, DAQ_fields) /\
    nth 2500 waveform 0 = -1 /\
    ~ Rabs (nth 2500 waveform 0) <= -1.
Proof.
  exists (map (sine_sample (-1) 0) (phases 10000)).
  assert (Hs : nth 2500 (map (sine_sample (-1) 0) (phases 10000)) 0 = -1).
  { rewrite sine_nth by lia.
    rewrite INR_IZR_INZ. change (Z.of_nat 2500) with 2500%Z.
    replace (2 * PI * 2500 / 10000) with (PI / 2) by lra.
    rewrite sin_PI2. lra. }
  split; [apply (generate_waveform_sine DAQ_fields); simpl; lia|].
  split; [exact Hs|].
  rewrite Hs. rewrite Rabs_left by lra. lra.
Qed.
End Sine.

(** ** The triangle branch *)

Section Triangle.
Local Open Scope string_scope.

Lemma np_floor_eq (x : R) (z : Z) :
  IZR z <= x < IZR z + 1 -> np_floor x = IZR z.
Proof.
  intros [Hlo Hhi]. unfold np_floor. f_equal. symmetry.
  apply Int_part_spec. split; lra.
Qed.

Lemma np_floor_bounds (x : R) : np_floor x <= x < np_floor x + 1.
Proof. unfold np_floor. pose proof (base_Int_part x). lra. Qed.

Lemma np_floor_succ (x : R) : np_floor (x + 1) = np_floor x + 1.
Proof.
  pose proof (np_floor_bounds x) as H. unfold np_floor in *.
  rewrite <- plus_IZR. apply np_floor_eq. rewrite plus_IZR. lra.
Qed.

(** The bracket [t/pi - floor(t/pi + 0.5)] lies in [[-1/2, 1/2)]. *)
Lemma triangle_bracket (t : R) :
  - (1 / 2) <= t / PI - np_floor (t / PI + 0.5) < 1 / 2.
Proof. pose proof (np_floor_bounds (t / PI + 0.5)). lra. Qed.

(** The expression has period [pi], not [2 pi]. *)
Lemma triangle_sample_period (amplitude offset t : R) :
  triangle_sample amplitude offset (t + PI) = triangle_sample amplitude offset t.
Proof.
  unfold triangle_sample.
  replace ((t + PI) / PI) with (t / PI + 1) by (field; apply PI_neq0).
  replace (t / PI + 1 + 0.5) with (t / PI + 0.5 + 1) by lra.
  rewrite np_floor_succ. lra.
Qed.

(** It never reaches [amplitude + offset]. *)
Lemma triangle_sample_below_peak (amplitude offset t : R) :
  0 < amplitude -> triangle_sample amplitude offset t < amplitude + offset.
Proof.
  intro Ha. unfold triangle_sample. pose proof (triangle_bracket t). nra.
Qed.

Lemma div_PI_bounds (t lo hi : R) :
  lo * PI <= t < hi * PI -> lo <= t / PI < hi.
Proof.
  intros [Hlo Hhi]. pose proof PI_RGT_0 as Hpi.
  assert (Ht : t = t / PI * PI) by (field; lra).
  split.
  - apply (Rmult_le_reg_r PI); lra.
  - apply (Rmult_lt_reg_r PI); lra.
Qed.

(** Over one turn the expression is three ramps of the same slope
    [2 * amplitude / pi], with a jump down by [2 * amplitude] at [pi/2] and
    at [3 pi/2]. *)
Lemma triangle_sample_pieces (amplitude offset t : R) :
  (0 <= t < PI / 2 ->
   triangle_sample amplitude offset t = 2 * amplitude / PI * t + offset) /\
  (PI / 2 <= t < 3 * PI / 2 ->
   triangle_sample amplitude offset t = 2 * amplitude / PI * (t - PI) + offset) /\
  (3 * PI / 2 <= t < 2 * PI ->
   triangle_sample amplitude offset t = 2 * amplitude / PI * (t - 2 * PI) + offset).
Proof.
  pose proof PI_neq0 as Hpi. unfold triangle_sample.
  split; [|split]; intro Ht.
  - assert (H : 0 <= t / PI < 1 / 2) by (apply div_PI_bounds; lra).
    rewrite (np_floor_eq _ 0) by (simpl; lra). field. exact Hpi.
  - assert (H : 1 / 2 <= t / PI < 3 / 2) by (apply div_PI_bounds; lra).
    rewrite (np_floor_eq _ 1) by (simpl; lra). field. exact Hpi.
  - assert (H : 3 / 2 <= t / PI < 2) by (apply div_PI_bounds; lra).
    rewrite (np_floor_eq _ 2) by (simpl; lra). field. exact Hpi.
Qed.

Lemma triangle_nth (n : Z) (amplitude offset : R) (k : nat) :
  (0 < n)%Z -> (k < Z.to_nat n)%nat ->
  nth k (map (triangle_sample amplitude offset) (phases n)) 0
  = amplitude * 2 * (2 * INR k / IZR n - np_floor (2 * INR k / IZR n + 0.5)) + offset.
Proof.
  intros Hn Hk.
  rewrite (nth_indep _ 0 (triangle_sample amplitude offset 0))
    by (rewrite length_map, phases_length; exact Hk).
  rewrite map_nth, phases_nth by exact Hk.
  unfold triangle_sample. rewrite phase_eq by exact Hn.
  replace (2 * PI * INR k / IZR n / PI) with (2 * INR k / IZR n).
  - reflexivity.
  - field. split; [apply not_0_IZR; lia | apply PI_neq0].
Qed.

(** C2. The "triangle" branch is a sawtooth: the sample expression has
    period [pi], stays strictly below [amplitude + offset] for a positive
    amplitude, and over one turn consists of three ramps of one and the same
    slope.  For the call of [main] (amplitude 1, offset 0, 10000 samples)
    the samples climb to 0.9996 at index 2499 and drop to -1 at index 2500;
    no sample is 1. *)
Theorem triangle_waveform_is_sawtooth :
  (forall amplitude offset t,
      triangle_sample amplitude offset (t + PI) = triangle_sample amplitude offset t) /\
  (forall amplitude offset t,
      0 < amplitude -> triangle_sample amplitude offset t < amplitude + offset) /\
  (forall amplitude offset t,
      (0 <= t < PI / 2 ->
       triangle_sample amplitude offset t = 2 * amplitude / PI * t + offset) /\
      (PI / 2 <= t < 3 * PI / 2 ->
       triangle_sample amplitude offset t = 2 * amplitude / PI * (t - PI) + offset) /\
      (3 * PI / 2 <= t < 2 * PI ->
       triangle_sample amplitude offset t
       = 2 * amplitude / PI * (t - 2 * PI) + offset)) /\
  exists waveform,
    generate_waveform "triangle" 1 0 DAQ_fields = (Ok waveform, DAQ_fields) /\
    nth 2499 waveform 0 = 0.9996 /\
    nth 2500 waveform 0 = -1 /\
    (forall k, (k < List.length waveform)%nat -> nth k waveform 0 < 1).
Proof.
  split; [exact triangle_sample_period|].
  split; [exact triangle_sample_below_peak|].
  split; [exact triangle_sample_pieces|].
  exists (map (triangle_sample 1 0) (phases 10000)).
  split; [apply (generate_waveform_triangle DAQ_fields); simpl; lia|].
  split; [|split].
  - rewrite triangle_nth by lia.
    rewrite INR_IZR_INZ. change (Z.of_nat 2499) with 2499%Z.
    rewrite (np_floor_eq _ 0) by (simpl; lra). lra.
  - rewrite triangle_nth by lia.
    rewrite INR_IZR_INZ. change (Z.of_nat 2500) with 2500%Z.
    rewrite (np_floor_eq _ 1) by (simpl; lra). lra.
  - intros k Hk. rewrite length_map, phases_length in Hk.
    rewrite (nth_indep _ 0 (triangle_sample 1 0 0))
      by (rewrite length_map, phases_length; exact Hk).
    rewrite map_nth.
    pose proof (triangle_sample_below_peak 1 0 (nth k (phases 10000) 0)). lra.
Qed.
End Triangle.

(** ** Filter design and the convenience compositions *)

Section Filters.
Local Open Scope string_scope.

Variable butter : Z -> Wn -> string -> bool -> result Coeffs.
Variable filtfilt : list R -> list R -> list R -> result (list R).

Lemma py_div_nonzero (x y : R) : y <> 0 -> py_div x y = Ok (x / y).
Proof.
  intro Hy. unfold py_div. destruct (Req_dec_T y 0) as [E|_]; [contradiction | reflexivity].
Qed.

Lemma py_div_zero (x : R) :
  py_div x 0 = Raise (ZeroDivisionError "float division by zero").
Proof.
  unfold py_div. destruct (Req_dec_T 0 0) as [_|N]; [reflexivity | contradiction N; reflexivity].
Qed.

Lemma half_rate_nonzero (fs : R) : fs <> 0 -> 0.5 * fs <> 0.
Proof. intros H E. apply H. lra. Qed.

Lemma unpack_coeffs (r : result Coeffs) :
  Exc.bind r (fun ba => let '(b, a) := ba in Ok (b, a)) = r.
Proof. destruct r as [[b a]|e]; reflexivity. Qed.

Lemma butter_lowpass_eq (cutoff fs : R) (order : Z) :
  fs <> 0 ->
  butter_lowpass butter cutoff fs order
  = butter order (Scalar (cutoff / (0.5 * fs))) "low" false.
Proof.
  intro Hfs. unfold butter_lowpass.
  rewrite (py_div_nonzero _ _ (half_rate_nonzero fs Hfs)). simpl.
  apply unpack_coeffs.
Qed.

Lemma butter_highpass_eq (cutoff fs : R) (order : Z) :
  fs <> 0 ->
  butter_highpass butter cutoff fs order
  = butter order (Scalar (cutoff / (0.5 * fs))) "high" false.
Proof.
  intro Hfs. unfold butter_highpass.
  rewrite (py_div_nonzero _ _ (half_rate_nonzero fs Hfs)). simpl.
  apply unpack_coeffs.
Qed.

Lemma butter_bandpass_eq (lowcut highcut fs : R) (order : Z) :
  fs <> 0 ->
  butter_bandpass butter lowcut highcut fs order
  = butter order (Band (lowcut / (0.5 * fs)) (highcut / (0.5 * fs))) "band" false.
Proof.
  intro Hfs. unfold butter_bandpass.
  rewrite !(py_div_nonzero _ _ (half_rate_nonzero fs Hfs)). simpl.
  apply unpack_coeffs.
Qed.

(** With a zero sampling rate the division raises before [butter] is
    called. *)
Lemma butter_lowpass_zero_rate (cutoff : R) (order : Z) :
  butter_lowpass butter cutoff 0 order
  = Raise (ZeroDivisionError "float division by zero").
Proof.
  unfold butter_lowpass. replace (0.5 * 0) with 0 by lra.
  rewrite py_div_zero. reflexivity.
Qed.

(** When [butter] refuses every digital critical frequency outside
    [(0, 1)], a cutoff outside [(0, fs/2)] is refused for a positive
    sampling rate. *)
Lemma butter_lowpass_out_of_range (cutoff fs : R) (order : Z) :
  (forall N w btype, ~ 0 < w < 1 -> is_ok (butter N (Scalar w) btype false) = false) ->
  0 < fs -> cutoff <= 0 \/ cutoff >= fs / 2 ->
  is_ok (butter_lowpass butter cutoff fs order) = false.
Proof.
  intros Hrange Hfs Hcut. rewrite butter_lowpass_eq by lra.
  apply Hrange. intros [Hlo Hhi].
  assert (Hny : 0 < 0.5 * fs) by lra.
  assert (E : cutoff = cutoff / (0.5 * fs) * (0.5 * fs)) by (field; lra).
  destruct Hcut as [Hc|Hc]; nra.
Qed.
End Filters.

Section FilterClaims.
Local Open Scope string_scope.

(** C5. For a positive sampling rate each design function passes to
    [butter] the requested order, the cutoff(s) divided by the Nyquist
    frequency [0.5 * fs = fs / 2] (each band edge on its own), its family
    and [analog=False], and returns what [butter] returns. *)
Theorem butter_design_normalizes_by_nyquist :
  forall (butter : Z -> Wn -> string -> bool -> result Coeffs)
         (cutoff lowcut highcut fs : R) (order : Z),
    0 < fs ->
    0.5 * fs = fs / 2 /\
    butter_lowpass butter cutoff fs order
    = butter order (Scalar (cutoff / (0.5 * fs))) "low" false /\
    butter_highpass butter cutoff fs order
    = butter order (Scalar (cutoff / (0.5 * fs))) "high" false /\
    butter_bandpass butter lowcut highcut fs order
    = butter order (Band (lowcut / (0.5 * fs)) (highcut / (0.5 * fs))) "band" false.
Proof.
  intros butter cutoff lowcut highcut fs order Hfs.
  assert (Hne : fs <> 0) by lra.
  split; [lra|].
  split; [apply butter_lowpass_eq, Hne|].
  split; [apply butter_highpass_eq, Hne | apply butter_bandpass_eq, Hne].
Qed.

Lemma butter_design_normalizes_by_nyquist_witness :
  0 < 1000 /\
  butter_lowpass range_checking_butter 100 1000 5
  = range_checking_butter 5 (Scalar (100 / (0.5 * 1000))) "low" false.
Proof.
  assert (H : 0 < 1000) by lra.
  split; [exact H|].
  exact (proj1 (proj2 (butter_design_normalizes_by_nyquist
                         range_checking_butter 100 100 200 1000 5 H))).
Defined.

(** C6. Each convenience composition is its design function followed by
    [apply_filter] on the designed coefficients. *)
Theorem filter_compositions_are_two_step :
  forall (butter : Z -> Wn -> string -> bool -> result Coeffs)
         (filtfilt : list R -> list R -> list R -> result (list R))
         (cutoff lowcut highcut : R) (buffer_in : list R) (fs : R) (order : Z),
    lowpass_filter butter filtfilt cutoff buffer_in fs order
    = design_then_apply filtfilt (butter_lowpass butter cutoff fs order) buffer_in /\
    highpass_filter butter filtfilt cutoff buffer_in fs order
    = design_then_apply filtfilt (butter_highpass butter cutoff fs order) buffer_in /\
    bandpass_filter butter filtfilt lowcut highcut buffer_in fs order
    = design_then_apply filtfilt (butter_bandpass butter lowcut highcut fs order)
        buffer_in.
Proof.
  intros. unfold lowpass_filter, highpass_filter, bandpass_filter, design_then_apply.
  split; [|split].
  - destruct (butter_lowpass butter cutoff fs order) as [[b a]|e]; reflexivity.
  - destruct (butter_highpass butter cutoff fs order) as [[b a]|e]; reflexivity.
  - destruct (butter_bandpass butter lowcut highcut fs order) as [[b a]|e]; reflexivity.
Qed.

(** C7. The design functions validate nothing themselves: for a non-zero
    sampling rate each one raises exactly when [butter] raises on the order
    and the normalized cutoff(s), and with [butter]'s exception. *)
Theorem design_fails_exactly_when_butter_rejects :
  forall (butter : Z -> Wn -> string -> bool -> result Coeffs)
         (cutoff lowcut highcut fs : R) (order : Z) (e : exn),
    fs <> 0 ->
    (butter_lowpass butter cutoff fs order = Raise e <->
     butter order (Scalar (cutoff / (0.5 * fs))) "low" false = Raise e) /\
    (butter_highpass butter cutoff fs order = Raise e <->
     butter order (Scalar (cutoff / (0.5 * fs))) "high" false = Raise e) /\
    (butter_bandpass butter lowcut highcut fs order = Raise e <->
     butter order (Band (lowcut / (0.5 * fs)) (highcut / (0.5 * fs))) "band" false
     = Raise e).
Proof.
  intros butter cutoff lowcut highcut fs order e Hne.
  rewrite butter_lowpass_eq, butter_highpass_eq, butter_bandpass_eq by exact Hne.
  repeat split; intro H; exact H.
Qed.

Lemma design_fails_exactly_when_butter_rejects_witness :
  1000 <> 0 /\
  butter_lowpass range_checking_butter 600 1000 5
  = Raise (ValueError "Digital filter critical frequencies must be 0 < Wn < 1").
Proof.
  assert (H : 1000 <> 0) by lra.
  split; [exact H|].
  apply (proj1 (design_fails_exactly_when_butter_rejects
                  range_checking_butter 600 600 700 1000 5 _ H)).
  unfold range_checking_butter.
  destruct (Rlt_dec 0 (600 / (0.5 * 1000))) as [_|N]; [|exfalso; apply N; lra].
  destruct (Rlt_dec (600 / (0.5 * 1000)) 1) as [L|_]; [exfalso; lra | reflexivity].
Defined.

(** C7, as stated, fails whatever [butter] does: a negative cutoff with a
    negative sampling rate has the normalized cutoff of a valid request, so
    the design function hands [butter] the very same arguments; a [butter]
    that designs the valid filter (100 Hz at 1 kHz, order 5) also returns
    coefficients for cutoff -100 at rate -1000. *)
Lemma design_accepts_negative_cutoff_and_rate :
  (forall butter : Z -> Wn -> string -> bool -> result Coeffs,
      butter_lowpass butter (-100) (-1000) 5 = butter_lowpass butter 100 1000 5) /\
  ~ exists butter : Z -> Wn -> string -> bool -> result Coeffs,
      is_ok (butter_lowpass butter 100 1000 5) = true /\
      forall cutoff fs order,
        cutoff <= 0 \/ cutoff >= 0.5 * fs \/ (order < 1)%Z ->
        is_ok (butter_lowpass butter cutoff fs order) = false.
Proof.
  assert (Hsame : forall butter : Z -> Wn -> string -> bool -> result Coeffs,
             butter_lowpass butter (-100) (-1000) 5 = butter_lowpass butter 100 1000 5).
  { intro butter. rewrite !butter_lowpass_eq by lra.
    replace (-100 / (0.5 * -1000)) with (100 / (0.5 * 1000)) by lra.
    reflexivity. }
  split; [exact Hsame|].
  intros (butter & Hvalid & Hclaim).
  specialize (Hclaim (-100) (-1000) 5%Z).
  rewrite Hsame, Hvalid in Hclaim.
  assert (Hpre : -100 <= 0 \/ -100 >= 0.5 * -1000 \/ (5 < 1)%Z) by (left; lra).
  specialize (Hclaim Hpre). discriminate Hclaim.
Qed.
End FilterClaims.

(** ** The processing pipelines *)

Section PipelineProperties.
Local Open Scope string_scope.

Lemma run_functions_app (A : Type) (fs gs : list (A -> result A)) (data : A) :
  run_functions data (fs ++ gs)
  = Exc.bind (run_functions data fs) (fun d => run_functions d gs).
Proof.
  revert data. induction fs as [|f fs IH]; intro data; simpl.
  - reflexivity.
  - destruct (f data) as [d|e]; simpl; [apply IH | reflexivity].
Qed.

(** X1. A pipeline over no function returns the data; a pipeline over two
    lists one after the other is the pipeline over the first list followed,
    when it succeeds, by the pipeline over the second; so [preprocess],
    [process] and [postprocess] run in sequence amount to one [process] over
    the three lists appended. *)
Theorem process_append :
  forall (A : Type) (data : A) (fs gs hs : list (A -> result A)),
    process data [] = Ok data /\
    process data (fs ++ gs) = Exc.bind (process data fs) (fun d => process d gs) /\
    Exc.bind (preprocess data fs)
      (fun d => Exc.bind (process d gs) (fun d' => postprocess d' hs))
    = process data (fs ++ gs ++ hs).
Proof.
  intros A data fs gs hs. unfold process, preprocess, postprocess.
  split; [reflexivity|]. split; [apply run_functions_app|].
  rewrite (run_functions_app A fs (gs ++ hs)).
  destruct (run_functions data fs) as [d|e]; simpl; [|reflexivity].
  rewrite run_functions_app. reflexivity.
Qed.

(** X2. The first function that raises ends the pipeline with its
    exception, whatever functions follow it in the list. *)
Theorem process_stops_at_first_error :
  forall (A : Type) (data d : A) (fs hs : list (A -> result A))
         (g : A -> result A) (e : exn),
    process data fs = Ok d -> g d = Raise e ->
    process data (fs ++ g :: hs) = Raise e.
Proof.
  intros A data d fs hs g e Hfs Hg. unfold process in *.
  rewrite run_functions_app, Hfs. simpl. rewrite Hg. reflexivity.
Qed.

Lemma process_stops_at_first_error_witness :
  process 1%Z ([fun x => Ok (x + 1)%Z]
               ++ (fun _ => Raise (ValueError "bad sample")) :: [fun x => Ok (x * 2)%Z])
  = Raise (ValueError "bad sample").
Proof.
  apply (process_stops_at_first_error Z 1%Z 2%Z [fun x => Ok (x + 1)%Z]
           [fun x => Ok (x * 2)%Z] (fun _ => Raise (ValueError "bad sample")));
    reflexivity.
Defined.
End PipelineProperties.

(** ** More on the filter helpers *)

Section FilterProperties.
Local Open Scope string_scope.

Lemma butter_highpass_zero_rate
  (butter : Z -> Wn -> string -> bool -> result Coeffs) (cutoff : R) (order : Z) :
  butter_highpass butter cutoff 0 order
  = Raise (ZeroDivisionError "float division by zero").
Proof.
  unfold butter_highpass. replace (0.5 * 0) with 0 by lra.
  rewrite py_div_zero. reflexivity.
Qed.

Lemma butter_bandpass_zero_rate
  (butter : Z -> Wn -> string -> bool -> result Coeffs) (lowcut highcut : R)
  (order : Z) :
  butter_bandpass butter lowcut highcut 0 order
  = Raise (ZeroDivisionError "float division by zero").
Proof.
  unfold butter_bandpass. replace (0.5 * 0) with 0 by lra.
  rewrite py_div_zero. reflexivity.
Qed.

(** X3. The designed filter depends on cutoff and sampling rate through
    their ratio only: multiplying both (and both band edges) by one non-zero
    factor changes neither the design nor the filtered buffer. *)
Theorem design_depends_on_ratio :
  forall (butter : Z -> Wn -> string -> bool -> result Coeffs)
         (filtfilt : list R -> list R -> list R -> result (list R))
         (k cutoff lowcut highcut fs : R) (order : Z) (buffer_in : list R),
    k <> 0 -> fs <> 0 ->
    butter_lowpass butter (k * cutoff) (k * fs) order
    = butter_lowpass butter cutoff fs order /\
    butter_highpass butter (k * cutoff) (k * fs) order
    = butter_highpass butter cutoff fs order /\
    butter_bandpass butter (k * lowcut) (k * highcut) (k * fs) order
    = butter_bandpass butter lowcut highcut fs order /\
    lowpass_filter butter filtfilt (k * cutoff) buffer_in (k * fs) order
    = lowpass_filter butter filtfilt cutoff buffer_in fs order /\
    highpass_filter butter filtfilt (k * cutoff) buffer_in (k * fs) order
    = highpass_filter butter filtfilt cutoff buffer_in fs order /\
    bandpass_filter butter filtfilt (k * lowcut) (k * highcut) buffer_in (k * fs) order
    = bandpass_filter butter filtfilt lowcut highcut buffer_in fs order.
Proof.
  intros butter filtfilt k cutoff lowcut highcut fs order buffer_in Hk Hfs.
  assert (Hkfs : k * fs <> 0) by (apply Rmult_integral_contrapositive; split; assumption).
  assert (Hratio : forall c, k * c / (0.5 * (k * fs)) = c / (0.5 * fs))
    by (intro c; field; repeat split; try assumption; lra).
  assert (Hlow : butter_lowpass butter (k * cutoff) (k * fs) order
                 = butter_lowpass butter cutoff fs order)
    by (rewrite !butter_lowpass_eq, Hratio by assumption; reflexivity).
  assert (Hhigh : butter_highpass butter (k * cutoff) (k * fs) order
                  = butter_highpass butter cutoff fs order)
    by (rewrite !butter_highpass_eq, Hratio by assumption; reflexivity).
  assert (Hband : butter_bandpass butter (k * lowcut) (k * highcut) (k * fs) order
                  = butter_bandpass butter lowcut highcut fs order)
    by (rewrite !butter_bandpass_eq, !Hratio by assumption; reflexivity).
  unfold lowpass_filter, highpass_filter, bandpass_filter.
  rewrite Hlow, Hhigh, Hband. repeat split; reflexivity.
Qed.

Lemma design_depends_on_ratio_witness :
  butter_lowpass range_checking_butter (1000 * 0.1) (1000 * 1) 5
  = butter_lowpass range_checking_butter 0.1 1 5.
Proof.
  assert (Hk : 1000 <> 0) by lra.
  assert (Hfs : 1 <> 0) by lra.
  exact (proj1 (design_depends_on_ratio range_checking_butter
                  (fun _ _ x => Ok x) 1000 0.1 0.1 0.2 1 5 [] Hk Hfs)).
Defined.

(** X4. With a sampling rate of zero every design function, and every
    convenience composition, raises [ZeroDivisionError]: [butter] and
    [filtfilt] are not reached. *)
Theorem zero_rate_raises_ZeroDivisionError :
  forall (butter : Z -> Wn -> string -> bool -> result Coeffs)
         (filtfilt : list R -> list R -> list R -> result (list R))
         (cutoff lowcut highcut : R) (order : Z) (buffer_in : list R),
    let e := ZeroDivisionError "float division by zero" in
    butter_lowpass butter cutoff 0 order = Raise e /\
    butter_highpass butter cutoff 0 order = Raise e /\
    butter_bandpass butter lowcut highcut 0 order = Raise e /\
    lowpass_filter butter filtfilt cutoff buffer_in 0 order = Raise e /\
    highpass_filter butter filtfilt cutoff buffer_in 0 order = Raise e /\
    bandpass_filter butter filtfilt lowcut highcut buffer_in 0 order = Raise e.
Proof.
  intros. subst e. unfold lowpass_filter, highpass_filter, bandpass_filter.
  rewrite butter_lowpass_zero_rate, butter_highpass_zero_rate,
    butter_bandpass_zero_rate.
  repeat split; reflexivity.
Qed.
End FilterProperties.

(** ** What [initDAQ] assigns *)

Section InitDAQState.
Local Open Scope string_scope.

(** X5. [initDAQ] assigns nothing when the inventory does not hold exactly
    one device.  With exactly one device it always leaves a handle to that
    device in [daq_device], unreleased, whether it then fails or not, and the
    handle is connected exactly when [initDAQ] returned normally; buffers and
    configuration maps are never touched. *)
Theorem initDAQ_assignments :
  forall (devices : list DaqDeviceDescriptor) (self : DAQ),
    let outcome := fst (initDAQ devices self) in
    let self' := snd (initDAQ devices self) in
    (List.length devices <> 1%nat -> self' = self) /\
    (forall d, devices = [d] ->
       exists dev,
         daq_device self' = Some dev /\ get_descriptor dev = d /\
         is_released dev = false /\
         (is_connected dev = true <-> outcome = Ok tt) /\
         ai_device self' = get_ai_device (DaqDevice_new d) /\
         ao_device self' = get_ao_device (DaqDevice_new d)) /\
    buffer_in self' = buffer_in self /\ buffer_out self' = buffer_out self /\
    analog_input_map self' = analog_input_map self /\
    analog_output_map self' = analog_output_map self.
Proof.
  intros devices self outcome self'; subst outcome self'.
  destruct devices as [|d [|d' l]].
  - rewrite initDAQ_nil; simpl.
    split; [reflexivity|]. split; [intros d0 E; discriminate E|].
    repeat split; reflexivity.
  - rewrite initDAQ_single.
    split; [simpl; intro H; contradiction H; reflexivity|].
    split.
    + intros d0 E. injection E as <-.
      destruct d as [name [pi|] [po|] c clk]; simpl;
        try destruct pi; try destruct po; try destruct c; simpl;
        eexists; (split; [reflexivity|]); (split; [reflexivity|]);
        (split; [reflexivity|]);
        (split; [split; intro H; (reflexivity || discriminate H)|]);
        split; reflexivity.
    + destruct d as [name [pi|] [po|] c clk]; simpl;
        try destruct pi; try destruct po; try destruct c; simpl;
        repeat split; reflexivity.
  - rewrite initDAQ_many; simpl.
    split; [reflexivity|]. split; [intros d0 E; discriminate E|].
    repeat split; reflexivity.
Qed.
End InitDAQState.

(** ** Starting the scans *)

Section StartScans.
Local Open Scope string_scope.

Lemma create_float_buffer_negative (n : Z) :
  (n < 0)%Z -> create_float_buffer 1 n = Raise (ValueError "Array length must be >= 0").
Proof.
  intro Hn. unfold create_float_buffer.
  destruct (Z.ltb_spec (1 * n) 0) as [_|Hge]; [reflexivity | lia].
Qed.



(** X7. [start_input_thread] fails in two ways.  A negative sample count
    makes the buffer allocation raise [ValueError] and nothing is assigned.
    A missing analog input subsystem raises [AttributeError], but only after
    [buffer_in] was replaced by a fresh zeroed buffer. *)
Theorem start_input_thread_failures :
  forall (self : DAQ),
    let n := in_samples_per_channel (analog_input_map self) in
    ((n < 0)%Z ->
     start_input_thread self = (Raise (ValueError "Array length must be >= 0"), self)) /\
    ((0 <= n)%Z -> ai_device self = None ->
     start_input_thread self
     = (Raise (AttributeError "'NoneType' object has no attribute 'a_in_scan'"),
        set_buffer_in (Some (repeat 0 (Z.to_nat n))) self)).
Proof.
  intros self n. subst n.
  unfold start_input_thread, St.bind, St.get, St.lift, modify.
  split.
  - intro Hn. rewrite (create_float_buffer_negative _ Hn). reflexivity.
  - intros Hn Hi. rewrite (create_float_buffer_zeros _ Hn).
    unfold self_ai_device; simpl. rewrite Hi. reflexivity.
Qed.

Lemma np_copyto_mismatch (dst src : list R) :
  List.length src <> List.length dst -> List.length src <> 1%nat ->
  np_copyto dst src = Raise (ValueError "could not broadcast input array").
Proof.
  intros Hlen H1. unfold np_copyto.
  destruct (Nat.eqb_spec (List.length src) (List.length dst)) as [E|_];
    [contradiction|].
  destruct src as [|x [|y src]]; try reflexivity.
  contradiction H1; reflexivity.
Qed.


(** X8. A waveform whose length is neither [samples_per_channel] nor 1
    makes [start_output_thread] raise [ValueError] at the copy: the output
    scan is not started, but [buffer_out] has already been replaced by a
    zeroed buffer, so a buffer set by an earlier call is lost. *)
Theorem start_output_thread_rejects_wrong_length :
  forall (self : DAQ) (waveform : list R),
    let n := out_samples_per_channel (analog_output_map self) in
    (0 <= n)%Z ->
    List.length waveform <> Z.to_nat n -> List.length waveform <> 1%nat ->
    start_output_thread waveform self
    = (Raise (ValueError "could not broadcast input array"),
       set_buffer_out (Some (repeat 0 (Z.to_nat n))) self).
Proof.
  intros self waveform n Hn Hlen H1. subst n.
  unfold start_output_thread, St.bind, St.get, St.lift, modify.
  rewrite (create_float_buffer_zeros _ Hn).
  rewrite np_copyto_mismatch by (rewrite ?repeat_length; assumption).
  reflexivity.
Qed.

Lemma start_output_thread_rejects_wrong_length_witness :
  start_output_thread [1; 2] DAQ_fields
  = (Raise (ValueError "could not broadcast input array"),
     set_buffer_out (Some (repeat 0 (Z.to_nat 10000))) DAQ_fields).
Proof.
  apply (start_output_thread_rejects_wrong_length DAQ_fields [1; 2]).
  - simpl. lia.
  - change (out_samples_per_channel (analog_output_map DAQ_fields)) with 10000%Z.
    simpl List.length. lia.
  - simpl List.length. lia.
Defined.


End StartScans.

(** ** More on [close_DAQ] *)

Section CloseDAQState.
Local Open Scope string_scope.

(** The controller [close_DAQ] leaves when the handle and both subsystems
    are present. *)
Lemma close_DAQ_state (self : DAQ) (dev : DaqDevice) (ai : AiDevice) (ao : AoDevice) :
  daq_device self = Some dev -> ai_device self = Some ai ->
  ao_device self = Some ao ->
  close_DAQ self
  = (Ok tt,
     set_daq_device
       (Some {| get_descriptor := get_descriptor dev; is_connected := false;
                is_released := true |})
       (set_ao_device
          (Some (if ScanStatus_eqb RUNNING (ao_scan_status ao)
                 then ao_set_status IDLE ao else ao))
          (set_ai_device
             (Some (if ScanStatus_eqb RUNNING (ai_scan_status ai)
                    then ai_set_status IDLE ai else ai))
             self))).
Proof.
  intros Hd Hi Ho. destruct self; simpl in *; subst.
  destruct dev as [desc c r], ai as [ii si ci], ao as [io so co].
  unfold close_DAQ, St.bind, St.get, self_ai_device, self_ao_device,
    self_daq_device, St.when, modify, St.ret; simpl.
  destruct si, so, c; reflexivity.
Qed.

(** X10. With the handle and both subsystems present [close_DAQ] returns
    normally.  It stops a scan only when its status is [RUNNING] (an idle or
    faulted scan keeps its status), leaves the handle disconnected and
    released, and touches neither buffers, rates, average nor configuration
    maps. *)
Theorem close_DAQ_stops_only_running_scans :
  forall (self : DAQ) (dev : DaqDevice) (ai : AiDevice) (ao : AoDevice),
    daq_device self = Some dev -> ai_device self = Some ai ->
    ao_device self = Some ao ->
    exists self',
      close_DAQ self = (Ok tt, self') /\
      ai_device self'
      = Some (if ScanStatus_eqb RUNNING (ai_scan_status ai)
              then ai_set_status IDLE ai else ai) /\
      ao_device self'
      = Some (if ScanStatus_eqb RUNNING (ao_scan_status ao)
              then ao_set_status IDLE ao else ao) /\
      daq_device self'
      = Some {| get_descriptor := get_descriptor dev; is_connected := false;
                is_released := true |} /\
      buffer_in self' = buffer_in self /\ buffer_out self' = buffer_out self /\
      actual_in_rate self' = actual_in_rate self /\
      actual_out_rate self' = actual_out_rate self /\
      input_average self' = input_average self /\
      analog_input_map self' = analog_input_map self /\
      analog_output_map self' = analog_output_map self.
Proof.
  intros self dev ai ao Hd Hi Ho.
  eexists. split; [apply (close_DAQ_state self dev ai ao Hd Hi Ho)|].
  repeat split; reflexivity.
Qed.

Lemma close_DAQ_stops_only_running_scans_witness :
  exists self',
    close_DAQ (controller_with_status ERROR) = (Ok tt, self') /\
    option_map ai_scan_status (ai_device self') = Some ERROR.
Proof.
  assert (Hd : daq_device (controller_with_status ERROR)
               = Some (connect (DaqDevice_new paced_device))).
  { unfold controller_with_status, DAQ_init. rewrite initDAQ_single. reflexivity. }
  destruct (close_DAQ_stops_only_running_scans (controller_with_status ERROR) _ _ _
              Hd (controller_ai_device ERROR) (controller_ao_device ERROR))
    as (self' & Hrun & Hai & _).
  exists self'. split; [exact Hrun|]. rewrite Hai. reflexivity.
Defined.

(** X11. Closing is idempotent on the controller: a second [close_DAQ]
    returns normally and leaves the controller exactly as the first one left
    it (the driver's own refusals on a released handle are not part of the
    model). *)
Theorem close_DAQ_idempotent :
  forall (self : DAQ) (dev : DaqDevice) (ai : AiDevice) (ao : AoDevice),
    daq_device self = Some dev -> ai_device self = Some ai ->
    ao_device self = Some ao ->
    fst (close_DAQ self) = Ok tt /\
    close_DAQ (snd (close_DAQ self)) = (Ok tt, snd (close_DAQ self)).
Proof.
  intros self dev ai ao Hd Hi Ho.
  rewrite (close_DAQ_state self dev ai ao Hd Hi Ho). simpl fst. simpl snd.
  split; [reflexivity|].
  erewrite close_DAQ_state by reflexivity.
  destruct self; simpl in *; subst.
  destruct ai as [ii si ci], ao as [io so co]; destruct si, so; reflexivity.
Qed.

Lemma close_DAQ_idempotent_witness :
  close_DAQ (snd (close_DAQ (controller_with_status RUNNING)))
  = (Ok tt, snd (close_DAQ (controller_with_status RUNNING))).
Proof.
  assert (Hd : daq_device (controller_with_status RUNNING)
               = Some (connect (DaqDevice_new paced_device))).
  { unfold controller_with_status, DAQ_init. rewrite initDAQ_single. reflexivity. }
  exact (proj2 (close_DAQ_idempotent (controller_with_status RUNNING) _ _ _
                  Hd (controller_ai_device RUNNING) (controller_ao_device RUNNING))).
Defined.
End CloseDAQState.

(** ** The input average *)

Section InputAverage.
Local Open Scope string_scope.

Lemma np_sum_bounds (data : list R) (lo hi : R) :
  (forall x, In x data -> lo <= x <= hi) ->
  INR (List.length data) * lo <= np_sum data <= INR (List.length data) * hi.
Proof.
  induction data as [|x data IH]; intro H.
  - simpl. lra.
  - change (np_sum (x :: data)) with (x + np_sum data).
    change (List.length (x :: data)) with (S (List.length data)).
    rewrite S_INR.
    assert (Hx : lo <= x <= hi) by (apply H; left; reflexivity).
    assert (Hrest : forall y, In y data -> lo <= y <= hi)
      by (intros y Hy; apply H; right; exact Hy).
    specialize (IH Hrest). lra.
Qed.

Lemma np_mean_bounds (data : list R) (lo hi : R) :
  data <> [] -> (forall x, In x data -> lo <= x <= hi) ->
  lo <= np_mean data <= hi.
Proof.
  intros Hne H. pose proof (np_sum_bounds data lo hi H) as [Hlo Hhi].
  assert (Hlen : 0 < INR (List.length data)).
  { destruct data as [|x data]; [contradiction Hne; reflexivity|].
    apply lt_0_INR. simpl. lia. }
  unfold np_mean. split.
  - apply (Rmult_le_reg_r (INR (List.length data))); [exact Hlen|].
    replace (np_sum data / INR (List.length data) * INR (List.length data))
      with (np_sum data) by (field; lra).
    lra.
  - apply (Rmult_le_reg_r (INR (List.length data))); [exact Hlen|].
    replace (np_sum data / INR (List.length data) * INR (List.length data))
      with (np_sum data) by (field; lra).
    lra.
Qed.

Lemma calculate_input_average_some (self : DAQ) (data : list R) :
  buffer_in self = Some data ->
  calculate_input_average self
  = (Ok (np_mean data), set_input_average (np_mean data) self).
Proof.
  intro Hb. unfold calculate_input_average, St.bind, St.get, modify, St.ret.
  rewrite Hb. reflexivity.
Qed.


(** X13. The average of a non-empty input buffer lies between any two
    bounds that hold for all of its samples. *)
Theorem input_average_within_sample_bounds :
  forall (self : DAQ) (data : list R) (lo hi : R),
    buffer_in self = Some data -> data <> [] ->
    (forall x, In x data -> lo <= x <= hi) ->
    exists avg,
      fst (calculate_input_average self) = Ok avg /\ lo <= avg <= hi.
Proof.
  intros self data lo hi Hb Hne H.
  exists (np_mean data).
  rewrite (calculate_input_average_some self data Hb).
  split; [reflexivity | apply np_mean_bounds; assumption].
Qed.

Lemma input_average_within_sample_bounds_witness :
  exists avg,
    fst (calculate_input_average (set_buffer_in (Some [1; 3]) DAQ_fields)) = Ok avg /\
    1 <= avg <= 3.
Proof.
  apply (input_average_within_sample_bounds
           (set_buffer_in (Some [1; 3]) DAQ_fields) [1; 3] 1 3).
  - reflexivity.
  - discriminate.
  - intros x [<- | [<- | []]]; lra.
Defined.
End InputAverage.

(** ** The envelope of the generated waveform *)

Section WaveformEnvelope.
Local Open Scope string_scope.

Lemma sine_sample_envelope (amplitude offset t : R) :
  Rabs (sine_sample amplitude offset t - offset) <= Rabs amplitude.
Proof.
  unfold sine_sample.
  replace (amplitude * sin t + offset - offset) with (amplitude * sin t) by ring.
  rewrite Rabs_mult. pose proof (SIN_bound t) as [Hlo Hhi].
  assert (Hs : Rabs (sin t) <= 1) by (apply Rabs_le; lra).
  pose proof (Rabs_pos amplitude). pose proof (Rabs_pos (sin t)). nra.
Qed.

Lemma triangle_sample_envelope (amplitude offset t : R) :
  Rabs (triangle_sample amplitude offset t - offset) <= Rabs amplitude.
Proof.
  unfold triangle_sample.
  pose proof (triangle_bracket t) as [Hlo Hhi].
  set (u := t / PI - np_floor (t / PI + 0.5)) in *.
  replace (amplitude * 2 * u + offset - offset) with (amplitude * (2 * u)) by ring.
  rewrite Rabs_mult.
  assert (Hu : Rabs (2 * u) <= 1) by (apply Rabs_le; lra).
  pose proof (Rabs_pos amplitude). pose proof (Rabs_pos (2 * u)). nra.
Qed.

(** X14. Whatever [generate_waveform] returns, for either shape and every
    amplitude (negative ones included), offset and sample count: each sample
    is within [|amplitude|] of [offset]. *)
Theorem waveform_within_amplitude :
  forall (self : DAQ) (waveform_type : string) (amplitude offset : R)
         (waveform : list R),
    fst (generate_waveform waveform_type amplitude offset self) = Ok waveform ->
    Forall (fun x => Rabs (x - offset) <= Rabs amplitude) waveform.
Proof.
  intros self wt amplitude offset waveform H.
  unfold generate_waveform, St.bind, St.get, St.lift, St.ret, St.raise in H.
  destruct (np_linspace 0 (2 * PI) (out_samples_per_channel (analog_output_map self)))
    as [t|e]; [|discriminate H].
  destruct (String.eqb wt "sine").
  - injection H as <-. apply Forall_forall. intros x Hx.
    apply in_map_iff in Hx as (u & <- & _). apply sine_sample_envelope.
  - destruct (String.eqb wt "triangle"); [|discriminate H].
    injection H as <-. apply Forall_forall. intros x Hx.
    apply in_map_iff in Hx as (u & <- & _). apply triangle_sample_envelope.
Qed.

Lemma waveform_within_amplitude_witness :
  Forall (fun x => Rabs (x - 1) <= Rabs (-2))
         (map (triangle_sample (-2) 1) (phases 10000)).
Proof.
  apply (waveform_within_amplitude DAQ_fields "triangle" (-2) 1).
  rewrite generate_waveform_triangle; [reflexivity | simpl; lia].
Defined.
End WaveformEnvelope.

(** ** A whole session *)

Section Session.
Local Open Scope string_scope.




End Session.

(** ** [main] *)

Section MainProperties.
Local Open Scope string_scope.

Lemma DAQ_init_raises_RuntimeError (devices : list DaqDeviceDescriptor) :
  is_ok (fst (DAQ_init devices)) = false ->
  exists msg self, DAQ_init devices = (Raise (RuntimeError msg), self).
Proof.
  unfold DAQ_init. destruct devices as [|d [|d' l]].
  - intros _. rewrite initDAQ_nil. eauto.
  - rewrite initDAQ_single.
    destruct (hw_ai d) as [[|]|], (hw_ao d) as [[|]|], (hw_connects d);
      simpl; intro H; try discriminate H; eauto.
  - intros _. rewrite initDAQ_many. eauto.
Qed.

Lemma main_construction_failed (devices : list DaqDeviceDescriptor) (fuel : nat)
  (msg : string) (self : DAQ) :
  DAQ_init devices = (Raise (RuntimeError msg), self) ->
  main devices fuel
  = Returned (initDAQ_prints devices
              ++ [Line ("Runtime error: " ++ msg); Line "DAQ connection closed."])
             None.
Proof. intro H. unfold main, main_try. rewrite H. reflexivity. Qed.


(** X16. When the constructor [DAQ()] fails, for whatever inventory, the
    exception is a [RuntimeError] and [main] returns having printed (after
    the connecting line, if [initDAQ] got that far) [Runtime error: <message>]
    and then [DAQ connection closed.]: the variable [daq] is still [None], so
    the [finally] clause calls no [close_DAQ]. *)
Theorem main_after_failed_construction :
  forall (devices : list DaqDeviceDescriptor) (fuel : nat),
    is_ok (fst (DAQ_init devices)) = false ->
    exists msg,
      fst (DAQ_init devices) = Raise (RuntimeError msg) /\
      main devices fuel
      = Returned (initDAQ_prints devices
                  ++ [Line ("Runtime error: " ++ msg);
                      Line "DAQ connection closed."])
                 None.
Proof.
  intros devices fuel H.
  destruct (DAQ_init_raises_RuntimeError devices H) as (msg & self & Hinit).
  exists msg. split.
  - rewrite Hinit. reflexivity.
  - apply (main_construction_failed devices fuel msg self Hinit).
Qed.

Lemma main_after_failed_construction_witness :
  exists msg,
    fst (DAQ_init [output_only_device]) = Raise (RuntimeError msg) /\
    main [output_only_device] 3
    = Returned (initDAQ_prints [output_only_device]
                ++ [Line ("Runtime error: " ++ msg);
                    Line "DAQ connection closed."])
               None.
Proof.
  apply (main_after_failed_construction [output_only_device] 3).
  unfold DAQ_init. rewrite initDAQ_single. reflexivity.
Defined.


End MainProperties.
